(** * Sidecar injector: admission decision, patch generation and hot reload

    A shallow embedding of [webhook/webhook.go] and the properties its
    specification states about it.  Go strings are byte strings
    ([String.string]), Go maps are [gmap]s wrapped in [option] where the
    source distinguishes a nil map, slices are lists, and the values of
    type [interface{}] carried by a patch operation are a tagged union. *)

From Stdlib Require Import Ascii String List Bool Arith Lia.
From stdpp Require Import base option strings gmap list pretty.

Local Open Scope string_scope.
Local Open Scope list_scope.

(** ** Go's [strings] package *)

Module strings.

Definition isUpper (n : nat) : bool := Nat.leb 65 n && Nat.leb n 90.

(** One byte of [strings.ToLower]: ['A'..'Z'] move to ['a'..'z'], every
    other byte stays.  On a string of ASCII bytes this is what Go
    computes; bytes from 0x80 on (multi-byte runes) are left as they are. *)
Definition toLowerByte (c : ascii) : ascii :=
  let n := nat_of_ascii c in
  if isUpper n then ascii_of_nat (n + 32) else c.

Fixpoint ToLower (s : string) : string :=
  match s with
  | EmptyString => EmptyString
  | String c r => String (toLowerByte c) (ToLower r)
  end.




End strings.

(** ** Data model *)

(** Results of fallible library calls: a value or an error message. *)
Inductive result (A : Type) : Type :=
| Ok (a : A)
| Err (msg : string).
Arguments Ok {A} a.
Arguments Err {A} msg.

(** A call either returns or panics (nil pointer dereference). *)
Inductive outcome (A : Type) : Type :=
| Returns (a : A)
| Panics.
Arguments Returns {A} a.
Arguments Panics {A}.

Module metav1.

(** [Annotations] is [None] for a nil map. *)
Record ObjectMeta : Type := {
  Namespace : string;
  Name : string;
  Annotations : option (gmap string string)
}.

Record Status : Type := {
  Message : string
}.

End metav1.

Module corev1.

(** The fields of [corev1.Container] the model tracks. *)
Record Container : Type := {
  ContainerName : string;
  Image : string;
  TerminationMessagePath : string;
  TerminationMessagePolicy : string
}.

Inductive VolumeSource : Type :=
| NoSource
| EmptyDir
| HostPath (path : string)
| SecretSource (secretName : string).

Record Volume : Type := {
  VolumeName : string;
  Source : VolumeSource
}.

Record LocalObjectReference : Type := {
  RefName : string
}.

Record PodSpec : Type := {
  Containers : list Container;
  Volumes : list Volume;
  ImagePullSecrets : list LocalObjectReference
}.

Record Pod : Type := {
  ObjectMeta : metav1.ObjectMeta;
  Spec : PodSpec
}.

End corev1.

Module v1beta1.

Inductive PatchType : Type :=
| PatchTypeJSONPatch.

(** [Raw] holds the bytes of [Object.Raw]. *)
Record AdmissionRequest : Type := {
  UID : string;
  ReqNamespace : string;
  ReqName : string;
  ReqOperation : string;
  Raw : string
}.

(** [Patch] is [None] for a nil byte slice, [Result] and [PatchType] for
    nil pointers. *)
Record AdmissionResponse : Type := {
  RespUID : string;
  Allowed : bool;
  Result : option metav1.Status;
  Patch : option string;
  RespPatchType : option PatchType
}.

Record AdmissionReview : Type := {
  Request : option AdmissionRequest;
  Response : option AdmissionResponse
}.

End v1beta1.

Definition webhookInjectKey : string := "sidecar-injector-mesher.io/inject".
Definition webhookStatusKey : string := "sidecar-injector-mesher.io/status".

(** [Config] has container, volume and image information. *)
Record Config : Type := {
  Containers : list corev1.Container;
  Volumes : list corev1.Volume;
  ImagePullSecret : list corev1.LocalObjectReference
}.

(** The shapes the [interface{}] value of an operation takes. *)
Inductive PatchValue : Type :=
| OneContainer (c : corev1.Container)
| ContainerList (l : list corev1.Container)
| OneVolume (v : corev1.Volume)
| VolumeList (l : list corev1.Volume)
| OneSecret (r : corev1.LocalObjectReference)
| SecretList (l : list corev1.LocalObjectReference)
| StringValue (s : string)
| StringMap (m : gmap string string).

Record operation : Type := {
  Operation : string;
  Path : string;
  Value : PatchValue
}.

(** A loaded X509 key pair, and the server's [TLSConfig] as the list of its
    certificates. *)
Record Certificate : Type := {
  CertPEM : string;
  KeyPEM : string
}.

Record WebHookServer : Type := {
  SidecarConfig : Config;
  TLSConfig : list Certificate
}.

(** Indexing a Go map: a nil map and a missing key both read as [""]. *)
Definition index (m : option (gmap string string)) (key : string) : string :=
  match m with
  | None => ""
  | Some m' => default "" (m' !! key)
  end.

(** ** Decision *)

Definition requiredMutation (metaData : metav1.ObjectMeta) : bool :=
  let annotations :=
    match metav1.Annotations metaData with
    | None => Some ∅
    | Some m => Some m
    end in
  let status := index annotations webhookStatusKey in
  if String.eqb (strings.ToLower status) "injected" then false
  else
    let inject := strings.ToLower (index annotations webhookInjectKey) in
    if String.eqb inject "y" || String.eqb inject "yes" then true else false.

(** ** Patch generation *)

Definition addOp (path : string) (v : PatchValue) : operation :=
  {| Operation := "add"; Path := path; Value := v |}.

(** One turn of the loop of [insertContainer]: [f] is the flag that the
    destination list was empty and nothing was emitted yet, [p] the
    operations so far. *)
Definition insertContainerStep (path : string)
    (st : bool * list operation) (add : corev1.Container) : bool * list operation :=
  let '(f, p) := st in
  if f then (false, p ++ [addOp path (ContainerList [add])])
  else (f, p ++ [addOp (path +:+ "/-") (OneContainer add)]).

Definition insertContainer (dest add : list corev1.Container) (path : string)
    : list operation :=
  snd (fold_left (insertContainerStep path) add (Nat.eqb (length dest) 0, [])).

Definition insertVolumeStep (path : string)
    (st : bool * list operation) (add : corev1.Volume) : bool * list operation :=
  let '(f, p) := st in
  if f then (false, p ++ [addOp path (VolumeList [add])])
  else (f, p ++ [addOp (path +:+ "/-") (OneVolume add)]).

Definition insertVolume (dest add : list corev1.Volume) (path : string)
    : list operation :=
  snd (fold_left (insertVolumeStep path) add (Nat.eqb (length dest) 0, [])).

Definition insertImagePullSecretsStep (path : string)
    (st : bool * list operation) (add : corev1.LocalObjectReference)
    : bool * list operation :=
  let '(f, p) := st in
  if f then (false, p ++ [addOp path (SecretList [add])])
  else (f, p ++ [addOp (path +:+ "/-") (OneSecret add)]).

Definition insertImagePullSecrets (dest add : list corev1.LocalObjectReference)
    (path : string) : list operation :=
  snd (fold_left (insertImagePullSecretsStep path) add (Nat.eqb (length dest) 0, [])).

(** One turn of the loop of [annotationUpdate]; the first [add] rebinds
    [dest] to an empty map. *)
Definition annotationUpdateStep
    (st : option (gmap string string) * list operation) (kv : string * string)
    : option (gmap string string) * list operation :=
  let '(dest, p) := st in
  let '(key, value) := kv in
  if match dest with None => true | Some _ => false end
     || String.eqb (index dest key) ""
  then (Some ∅,
        p ++ [{| Operation := "add"; Path := "/metadata/annotations";
                 Value := StringMap {[ key := value ]} |}])
  else (dest,
        p ++ [{| Operation := "replace"; Path := "/metadata/annotations/" +:+ key;
                 Value := StringValue value |}]).

(** The keys of [add] are visited in the order of [map_to_list]. *)
Definition annotationUpdate (dest : option (gmap string string))
    (add : gmap string string) : list operation :=
  snd (fold_left annotationUpdateStep (map_to_list add) (dest, [])).

(** The operations [createpatch] collects before it serialises them. *)
Definition patchOperations (pod : corev1.Pod) (sidecarConfig : Config)
    (annotations : gmap string string) : list operation :=
  insertContainer (corev1.Containers (corev1.Spec pod)) (Containers sidecarConfig)
    "/spec/containers"
  ++ insertVolume (corev1.Volumes (corev1.Spec pod)) (Volumes sidecarConfig)
       "/spec/volumes"
  ++ insertImagePullSecrets (corev1.ImagePullSecrets (corev1.Spec pod))
       (ImagePullSecret sidecarConfig) "/spec/imagePullSecrets"
  ++ annotationUpdate (metav1.Annotations (corev1.ObjectMeta pod)) annotations.

(** ** The request path *)

Definition errorResponse (msg : string) : v1beta1.AdmissionResponse :=
  {| v1beta1.RespUID := "";
     v1beta1.Allowed := false;
     v1beta1.Result := Some {| metav1.Message := msg |};
     v1beta1.Patch := None;
     v1beta1.RespPatchType := None |}.

Definition allowResponse : v1beta1.AdmissionResponse :=
  {| v1beta1.RespUID := "";
     v1beta1.Allowed := true;
     v1beta1.Result := None;
     v1beta1.Patch := None;
     v1beta1.RespPatchType := None |}.

Definition patchResponse (patch : string) : v1beta1.AdmissionResponse :=
  {| v1beta1.RespUID := "";
     v1beta1.Allowed := true;
     v1beta1.Result := None;
     v1beta1.Patch := Some patch;
     v1beta1.RespPatchType := Some v1beta1.PatchTypeJSONPatch |}.

Definition withUID (resp : v1beta1.AdmissionResponse) (uid : string)
    : v1beta1.AdmissionResponse :=
  {| v1beta1.RespUID := uid;
     v1beta1.Allowed := v1beta1.Allowed resp;
     v1beta1.Result := v1beta1.Result resp;
     v1beta1.Patch := v1beta1.Patch resp;
     v1beta1.RespPatchType := v1beta1.RespPatchType resp |}.

(** What the handler is given: [Body] is [None] for a nil body and
    [Some (Err _)] when reading it fails. *)
Record HttpRequest : Type := {
  Body : option (result string);
  ContentType : string
}.

Section Engine.

(** The codecs and the defaulting functions come from libraries; the
    handler is modelled over any of them. *)

(** [json.Unmarshal] of the raw object into a [corev1.Pod]. *)
Variable Unmarshal : string -> result corev1.Pod.
(** [json.Marshal] of the collected operations. *)
Variable Marshal : list operation -> result string.
(** [deserializer.Decode] into an admission review: what it leaves in
    the review, and its error if any. *)
Variable Decode : string -> v1beta1.AdmissionReview * option string.
(** What the registered defaulter does to each entry of a pod spec. *)
Variable SetDefaults_Container : corev1.Container -> corev1.Container.
Variable SetDefaults_Volume : corev1.Volume -> corev1.Volume.
Variable SetDefaults_LocalObjectReference :
  corev1.LocalObjectReference -> corev1.LocalObjectReference.

(** The defaulter writes through the slices it is handed, so the entries
    of the caller's slices are the defaulted ones afterwards. *)
Definition applyDefaultsWorkaround (containers : list corev1.Container)
    (volumes : list corev1.Volume) (secrets : list corev1.LocalObjectReference)
    : list corev1.Container * list corev1.Volume * list corev1.LocalObjectReference :=
  (map SetDefaults_Container containers,
   map SetDefaults_Volume volumes,
   map SetDefaults_LocalObjectReference secrets).

(** The configuration with every entry defaulted. *)
Definition defaulted (cfg : Config) : Config :=
  {| Containers := map SetDefaults_Container (Containers cfg);
     Volumes := map SetDefaults_Volume (Volumes cfg);
     ImagePullSecret := map SetDefaults_LocalObjectReference (ImagePullSecret cfg) |}.

Definition createpatch (pod : corev1.Pod) (sidecarConfig : Config)
    (annotations : gmap string string) : result string :=
  Marshal (patchOperations pod sidecarConfig annotations).

(** The main mutation process.  The slices passed to
    [applyDefaultsWorkaround] are those of [wh.SidecarConfig], so the
    server comes back with its configuration defaulted. *)
Definition mutation (wh : WebHookServer) (ar : v1beta1.AdmissionReview)
    : outcome (WebHookServer * v1beta1.AdmissionResponse) :=
  match v1beta1.Request ar with
  | None => Panics
  | Some req =>
    match Unmarshal (v1beta1.Raw req) with
    | Err msg => Returns (wh, errorResponse msg)
    | Ok pod =>
      if negb (requiredMutation (corev1.ObjectMeta pod)) then
        Returns (wh, allowResponse)
      else
        let '(containers, volumes, secrets) :=
          applyDefaultsWorkaround (Containers (SidecarConfig wh))
            (Volumes (SidecarConfig wh)) (ImagePullSecret (SidecarConfig wh)) in
        let wh' :=
          {| SidecarConfig :=
               {| Containers := containers; Volumes := volumes;
                  ImagePullSecret := secrets |};
             TLSConfig := TLSConfig wh |} in
        let annotations : gmap string string :=
          {[ webhookStatusKey := "injected" ]} in
        match createpatch pod (SidecarConfig wh') annotations with
        | Err msg => Returns (wh', errorResponse msg)
        | Ok patch => Returns (wh', patchResponse patch)
        end
    end
  end.

(** The serve method.  It returns the server and the review it writes,
    [None] when it returns without writing. *)
Definition webhookMutation (wh : WebHookServer) (r : HttpRequest)
    : outcome (WebHookServer * option v1beta1.AdmissionReview) :=
  let body :=
    match Body r with
    | Some (Ok data) => data
    | _ => ""
    end in
  if Nat.eqb (String.length body) 0 then Returns (wh, None)
  else if negb (String.eqb (ContentType r) "application/json") then
    Returns (wh, None)
  else
    let '(aRequest, err) := Decode body in
    let answered : outcome (WebHookServer * option v1beta1.AdmissionResponse) :=
      match err with
      | Some msg => Returns (wh, Some (errorResponse msg))
      | None =>
        match mutation wh aRequest with
        | Panics => Panics
        | Returns (wh', resp) => Returns (wh', Some resp)
        end
      end in
    match answered with
    | Panics => Panics
    | Returns (wh', aResponse) =>
      let response :=
        match aResponse with
        | None => None
        | Some resp =>
          match v1beta1.Request aRequest with
          | Some req => Some (withUID resp (v1beta1.UID req))
          | None => Some resp
          end
        end in
      Returns (wh', Some {| v1beta1.Request := None;
                            v1beta1.Response := response |})
    end.

End Engine.

(** ** The reload loop *)

Record WebHookParameters : Type := {
  Port : nat;
  CertFile : string;
  KeyFile : string;
  SidecarConfigFile : string;
  HealthCheckInterval : nat;
  HealthCheckFile : string
}.

(** The files on disk, by path. *)
Definition ReadFile (fs : gmap string string) (path : string) : result string :=
  match fs !! path with
  | Some data => Ok data
  | None => Err ("open " +:+ path +:+ ": no such file or directory")
  end.

(** What one turn of the [select] of [Run] receives. *)
Inductive event : Type :=
| TimerFired
| WatchEvent (isModify isCreate : bool)
| WatchError (err : string)
| HealthTick (writable : bool)
| StopSignal.

(** The loop's variables: the server, whether [timerChan] holds a pending
    timer, and whether the loop is still running. *)
Record loop : Type := {
  server : WebHookServer;
  timerArmed : bool;
  running : bool
}.

Section Coordinator.

(** [yaml.Unmarshal] into a [Config] and [tls.X509KeyPair]. *)
Variable yamlUnmarshal : string -> result Config.
Variable X509KeyPair : string -> string -> result Certificate.

Definition loadConfig (fs : gmap string string) (cfgFile : string) : result Config :=
  match ReadFile fs cfgFile with
  | Err e => Err e
  | Ok data =>
    match yamlUnmarshal data with
    | Err e => Err e
    | Ok cfg => Ok cfg
    end
  end.

Definition LoadX509KeyPair (fs : gmap string string) (certFile keyFile : string)
    : result Certificate :=
  match ReadFile fs certFile with
  | Err e => Err e
  | Ok certPEM =>
    match ReadFile fs keyFile with
    | Err e => Err e
    | Ok keyPEM => X509KeyPair certPEM keyPEM
    end
  end.

(** The [case <-timerChan] branch. *)
Definition reload (p : WebHookParameters) (fs : gmap string string)
    (wh : WebHookServer) : WebHookServer :=
  match loadConfig fs (SidecarConfigFile p) with
  | Err _ => wh
  | Ok sidecarConfig =>
    match LoadX509KeyPair fs (CertFile p) (KeyFile p) with
    | Err _ => wh
    | Ok keyPair => {| SidecarConfig := sidecarConfig; TLSConfig := [keyPair] |}
    end
  end.

Definition healthEnabled (p : WebHookParameters) : bool :=
  negb (Nat.eqb (HealthCheckInterval p) 0) && negb (String.eqb (HealthCheckFile p) "").

(** One turn of the loop of [Run] on the files as they are at that
    moment; it returns the loop's variables and the files afterwards. *)
Definition RunStep (p : WebHookParameters) (fs : gmap string string)
    (st : loop) (e : event) : loop * gmap string string :=
  if negb (running st) then (st, fs)
  else
    match e with
    | TimerFired =>
      if timerArmed st then
        ({| server := reload p fs (server st); timerArmed := false;
            running := running st |}, fs)
      else (st, fs)
    | WatchEvent isModify isCreate =>
      if isModify || isCreate then
        ({| server := server st; timerArmed := true; running := running st |}, fs)
      else (st, fs)
    | WatchError _ => (st, fs)
    | HealthTick writable =>
      if healthEnabled p && writable then (st, <[ HealthCheckFile p := "ok" ]> fs)
      else (st, fs)
    | StopSignal =>
      ({| server := server st; timerArmed := timerArmed st; running := false |}, fs)
    end.

(** The loop over a sequence of turns; the files may change between
    turns, so every turn comes with the files it sees. *)
Fixpoint Run (p : WebHookParameters) (st : loop)
    (turns : list (gmap string string * event)) : loop :=
  match turns with
  | [] => st
  | (fs, e) :: rest => Run p (fst (RunStep p fs st e)) rest
  end.

End Coordinator.

(** ** The server shared by the reload loop and the request path

    The reload of [Run] (lines 406 to 409) and the two places where
    [mutation] uses [wh.SidecarConfig] (lines 296 and 298) run in different
    goroutines.  Each line is one atomic step here; a schedule says which
    goroutine moves next. *)

Inductive goroutine : Type :=
| Reloader
| Handler.

(** What the request path found when it touched the server: the
    configuration, the TLS configuration and who held [wh.Lock]. *)
Record sighting : Type := {
  seenConfig : Config;
  seenTLS : list Certificate;
  seenLock : option goroutine
}.

Record shared : Type := {
  wh : WebHookServer;
  Lock : option goroutine;
  reloadPC : nat;
  handlerPC : nat;
  handlerOps : list operation;
  sightings : list sighting
}.

Section Goroutines.

Variable SetDefaults_Container : corev1.Container -> corev1.Container.
Variable SetDefaults_Volume : corev1.Volume -> corev1.Volume.
Variable SetDefaults_LocalObjectReference :
  corev1.LocalObjectReference -> corev1.LocalObjectReference.

(** The reload has loaded [sidecarConfig] and [keyPair]; what is left is
    [Lock], the two assignments and [Unlock]. *)
Definition reloaderStep (sidecarConfig : Config) (keyPair : Certificate)
    (s : shared) : shared :=
  match reloadPC s with
  | 0 =>
    match Lock s with
    | Some _ => s
    | None =>
      {| wh := wh s; Lock := Some Reloader; reloadPC := 1;
         handlerPC := handlerPC s; handlerOps := handlerOps s;
         sightings := sightings s |}
    end
  | 1 =>
    {| wh := {| SidecarConfig := sidecarConfig; TLSConfig := TLSConfig (wh s) |};
       Lock := Lock s; reloadPC := 2;
       handlerPC := handlerPC s; handlerOps := handlerOps s;
       sightings := sightings s |}
  | 2 =>
    {| wh := {| SidecarConfig := SidecarConfig (wh s); TLSConfig := [keyPair] |};
       Lock := Lock s; reloadPC := 3;
       handlerPC := handlerPC s; handlerOps := handlerOps s;
       sightings := sightings s |}
  | 3 =>
    {| wh := wh s; Lock := None; reloadPC := 4;
       handlerPC := handlerPC s; handlerOps := handlerOps s;
       sightings := sightings s |}
  | _ => s
  end.

Definition sight (s : shared) : sighting :=
  {| seenConfig := SidecarConfig (wh s); seenTLS := TLSConfig (wh s);
     seenLock := Lock s |}.

(** [mutation] on a pod that requires mutation: line 296 defaults the
    entries of [wh.SidecarConfig], line 298 builds the operations from
    [wh.SidecarConfig].  Neither step looks at [wh.Lock]. *)
Definition handlerStep (pod : corev1.Pod) (s : shared) : shared :=
  match handlerPC s with
  | 0 =>
    let '(containers, volumes, secrets) :=
      applyDefaultsWorkaround SetDefaults_Container SetDefaults_Volume
        SetDefaults_LocalObjectReference
        (Containers (SidecarConfig (wh s))) (Volumes (SidecarConfig (wh s)))
        (ImagePullSecret (SidecarConfig (wh s))) in
    {| wh := {| SidecarConfig :=
                  {| Containers := containers; Volumes := volumes;
                     ImagePullSecret := secrets |};
                TLSConfig := TLSConfig (wh s) |};
       Lock := Lock s; reloadPC := reloadPC s;
       handlerPC := 1; handlerOps := handlerOps s;
       sightings := sightings s ++ [sight s] |}
  | 1 =>
    {| wh := wh s; Lock := Lock s; reloadPC := reloadPC s;
       handlerPC := 2;
       handlerOps :=
         patchOperations pod (SidecarConfig (wh s))
           {[ webhookStatusKey := "injected" ]};
       sightings := sightings s ++ [sight s] |}
  | _ => s
  end.

Definition schedStep (sidecarConfig : Config) (keyPair : Certificate)
    (pod : corev1.Pod) (s : shared) (g : goroutine) : shared :=
  match g with
  | Reloader => reloaderStep sidecarConfig keyPair s
  | Handler => handlerStep pod s
  end.

Definition runSchedule (sidecarConfig : Config) (keyPair : Certificate)
    (pod : corev1.Pod) (s : shared) (schedule : list goroutine) : shared :=
  fold_left (schedStep sidecarConfig keyPair pod) schedule s.

Definition startShared (w : WebHookServer) : shared :=
  {| wh := w; Lock := None; reloadPC := 0; handlerPC := 0;
     handlerOps := []; sightings := [] |}.

End Goroutines.

(** ** The defaulting functions registered for pods

    The defaults [SetObjectDefaults_Pod] writes into the tracked fields of
    each entry: the termination message path and policy of a container, and
    an empty-dir source for a volume that names none. *)

Module k8s.

Definition orDefault (s d : string) : string :=
  if String.eqb s "" then d else s.

Definition SetDefaults_Container (c : corev1.Container) : corev1.Container :=
  {| corev1.ContainerName := corev1.ContainerName c;
     corev1.Image := corev1.Image c;
     corev1.TerminationMessagePath :=
       orDefault (corev1.TerminationMessagePath c) "/dev/termination-log";
     corev1.TerminationMessagePolicy :=
       orDefault (corev1.TerminationMessagePolicy c) "File" |}.

Definition SetDefaults_Volume (v : corev1.Volume) : corev1.Volume :=
  {| corev1.VolumeName := corev1.VolumeName v;
     corev1.Source :=
       match corev1.Source v with
       | corev1.NoSource => corev1.EmptyDir
       | src => src
       end |}.

Definition SetDefaults_LocalObjectReference (r : corev1.LocalObjectReference)
    : corev1.LocalObjectReference := r.

End k8s.

(** ** Start-up *)

(** [filepath.Split] on a slash-separated path: the directory is
    everything up to and including the final separator, the file what
    follows it. *)
Fixpoint Split (path : string) : string * string :=
  match path with
  | EmptyString => ("", "")
  | String c rest =>
    let '(dir, file) := Split rest in
    match dir with
    | String _ _ => (String c dir, file)
    | EmptyString =>
      if Ascii.eqb c "/" then (String c "", file) else ("", String c file)
    end
  end.

(** What [NewWebhook] hands back besides the server state: the listen
    address, the directories given to the watcher, in order, and the paths
    routed to [webhookMutation]. *)
Record started : Type := {
  hook : WebHookServer;
  Addr : string;
  Watched : list string;
  Routes : list string
}.

Section Startup.

Variable yamlUnmarshal : string -> result Config.
Variable X509KeyPair : string -> string -> result Certificate.
(** [fsnotify.NewWatcher] and [watcher.Watch]: the error, if any. *)
Variable NewWatcher : option string.
Variable Watch : string -> option string.

(** The loop over the three files: the directory of each is watched, and
    the first failure ends the loop with an error naming the file. *)
Fixpoint watchFiles (files : list string) (watched : list string)
    : result (list string) :=
  match files with
  | [] => Ok watched
  | file :: rest =>
    let '(watchFile, _) := Split file in
    match Watch watchFile with
    | Some err => Err ("could not watch " +:+ file +:+ ": " +:+ err)
    | None => watchFiles rest (watched ++ [watchFile])
    end
  end.

Definition NewWebhook (fs : gmap string string) (p : WebHookParameters)
    : result started :=
  match loadConfig yamlUnmarshal fs (SidecarConfigFile p) with
  | Err err => Err err
  | Ok sidecarConfig =>
    match LoadX509KeyPair X509KeyPair fs (CertFile p) (KeyFile p) with
    | Err err => Err err
    | Ok crt =>
      match NewWatcher with
      | Some err => Err err
      | None =>
        match watchFiles [SidecarConfigFile p; CertFile p; KeyFile p] [] with
        | Err err => Err err
        | Ok watched =>
          Ok {| hook := {| SidecarConfig := sidecarConfig; TLSConfig := [crt] |};
                Addr := ":" +:+ pretty (Port p);
                Watched := watched;
                Routes := ["/webhookmutation"] |}
        end
      end
    end
  end.

End Startup.

(** ** Vocabulary of the statements *)

(** One [add] per incoming entry at the append marker of [path]. *)
Definition appendOps {A : Type} (one : A -> PatchValue) (add : list A)
    (path : string) : list operation :=
  map (fun x => addOp (path +:+ "/-") (one x)) add.

(** What the three insert functions emit: when the destination is empty
    the first incoming entry creates the list at [path], as a list of that
    one entry, and the others are appended to it; otherwise every incoming
    entry is appended. *)
Definition createThenAppend {A : Type} (one : A -> PatchValue)
    (many : list A -> PatchValue) (dest add : list A) (path : string)
    : list operation :=
  match dest, add with
  | [], first :: others => addOp path (many [first]) :: appendOps one others path
  | _, _ => appendOps one add path
  end.

(** What the specification asks for on an empty destination: a single
    [add] at [path] carrying the whole incoming list. *)
Definition wholeListOp {A : Type} (many : list A -> PatchValue) (add : list A)
    (path : string) : list operation :=
  [addOp path (many add)].

(** The operations the annotation part consists of. *)
Definition addStatusOp : operation :=
  {| Operation := "add"; Path := "/metadata/annotations";
     Value := StringMap {[ webhookStatusKey := "injected" ]} |}.

Definition replaceStatusOp : operation :=
  {| Operation := "replace";
     Path := "/metadata/annotations/sidecar-injector-mesher.io/status";
     Value := StringValue "injected" |}.



(** The entries the values of a list of operations carry, in order. *)
Definition carriedContainers (ops : list operation) : list corev1.Container :=
  concat (map (fun o => match Value o with
                        | OneContainer c => [c]
                        | ContainerList l => l
                        | _ => []
                        end) ops).

Definition carriedVolumes (ops : list operation) : list corev1.Volume :=
  concat (map (fun o => match Value o with
                        | OneVolume v => [v]
                        | VolumeList l => l
                        | _ => []
                        end) ops).

Definition carriedSecrets (ops : list operation) : list corev1.LocalObjectReference :=
  concat (map (fun o => match Value o with
                        | OneSecret r => [r]
                        | SecretList l => l
                        | _ => []
                        end) ops).

(** The two operations [annotationUpdate] emits for a key and a value. *)
Definition addAnnotationOp (kv : string * string) : operation :=
  {| Operation := "add"; Path := "/metadata/annotations";
     Value := StringMap {[ fst kv := snd kv ]} |}.

Definition replaceAnnotationOp (kv : string * string) : operation :=
  {| Operation := "replace"; Path := "/metadata/annotations/" +:+ fst kv;
     Value := StringValue (snd kv) |}.

(** The loop of [annotationUpdate] over the pairs in a given order. *)
Definition annotationLoop (dest : option (gmap string string))
    (pairs : list (string * string)) : list operation :=
  snd (fold_left annotationUpdateStep pairs (dest, [])).

(** The bytes the handler goes on with: none for a nil body or a failed
    read. *)
Definition bodyOf (r : HttpRequest) : string :=
  match Body r with
  | Some (Ok data) => data
  | _ => ""
  end.

(** A watch event that arms the timer. *)
Definition arms (turn : gmap string string * event) : Prop :=
  match snd turn with
  | WatchEvent isModify isCreate => isModify || isCreate = true
  | _ => False
  end.

(** No separator in a file name. *)
Fixpoint noSlash (s : string) : bool :=
  match s with
  | EmptyString => true
  | String c rest => negb (Ascii.eqb c "/") && noSlash rest
  end.

(** ** Sample data

    A sidecar configuration, pods and requests on which the statements
    below are exercised, with codecs given by finite tables of the
    documents they understand. *)

Module Sample.

Definition mesher : corev1.Container :=
  {| corev1.ContainerName := "mesher";
     corev1.Image := "gochassis/mesher:latest";
     corev1.TerminationMessagePath := "";
     corev1.TerminationMessagePolicy := "" |}.

Definition collector : corev1.Container :=
  {| corev1.ContainerName := "collector";
     corev1.Image := "gochassis/collector:1.0";
     corev1.TerminationMessagePath := "/var/log/collector";
     corev1.TerminationMessagePolicy := "File" |}.

Definition app : corev1.Container :=
  {| corev1.ContainerName := "app";
     corev1.Image := "example/app:2.3";
     corev1.TerminationMessagePath := "/dev/termination-log";
     corev1.TerminationMessagePolicy := "File" |}.

Definition confVolume : corev1.Volume :=
  {| corev1.VolumeName := "mesher-conf"; corev1.Source := corev1.NoSource |}.

Definition regcred : corev1.LocalObjectReference :=
  {| corev1.RefName := "regcred" |}.

Definition sidecar : Config :=
  {| Containers := [mesher; collector];
     Volumes := [confVolume];
     ImagePullSecret := [regcred] |}.

Definition otherSidecar : Config :=
  {| Containers := [collector]; Volumes := []; ImagePullSecret := [] |}.

Definition oldPair : Certificate := {| CertPEM := "cert-1"; KeyPEM := "key-1" |}.
Definition newPair : Certificate := {| CertPEM := "cert-2"; KeyPEM := "key-2" |}.

Definition webhook : WebHookServer :=
  {| SidecarConfig := sidecar; TLSConfig := [oldPair] |}.

Definition podOf (annotations : option (gmap string string))
    (containers : list corev1.Container) : corev1.Pod :=
  {| corev1.ObjectMeta :=
       {| metav1.Namespace := "default"; metav1.Name := "web";
          metav1.Annotations := annotations |};
     corev1.Spec :=
       {| corev1.Containers := containers; corev1.Volumes := [];
          corev1.ImagePullSecrets := [] |} |}.

Definition bare : corev1.Pod := podOf None [app].
Definition wanted : corev1.Pod := podOf (Some {[ webhookInjectKey := "Yes" ]}) [app].
Definition empty : corev1.Pod := podOf (Some {[ webhookInjectKey := "y" ]}) [].
Definition pending : corev1.Pod :=
  podOf (Some (<[ webhookStatusKey := "pending" ]> {[ webhookInjectKey := "YES" ]})) [app].
Definition injected : corev1.Pod :=
  podOf (Some (<[ webhookStatusKey := "Injected" ]> {[ webhookInjectKey := "yes" ]})) [app].
Definition labelled : corev1.Pod :=
  podOf (Some (<[ "team" := "payments" ]> {[ webhookInjectKey := "Yes" ]})) [app].

(** Metadata with the two annotations set as given, [None] for unset. *)
Definition annotated (inject status : option string) : metav1.ObjectMeta :=
  {| metav1.Namespace := "default"; metav1.Name := "web";
     metav1.Annotations :=
       Some (match status with
             | None => id
             | Some v => <[ webhookStatusKey := v ]>
             end
               (match inject with
                | None => ∅
                | Some v => {[ webhookInjectKey := v ]}
                end)) |}.

(** The raw documents the sample [json.Unmarshal] understands. *)
Definition pods : gmap string corev1.Pod :=
  list_to_map
    [("bare", bare); ("wanted", wanted); ("empty", empty);
     ("pending", pending); ("injected", injected); ("labelled", labelled)].

Definition Unmarshal (raw : string) : result corev1.Pod :=
  match pods !! raw with
  | Some pod => Ok pod
  | None => Err "unexpected end of JSON input"
  end.

Definition requestOf (uid raw : string) : v1beta1.AdmissionRequest :=
  {| v1beta1.UID := uid; v1beta1.ReqNamespace := "default";
     v1beta1.ReqName := "web"; v1beta1.ReqOperation := "CREATE";
     v1beta1.Raw := raw |}.

Definition reviewOf (uid raw : string) : v1beta1.AdmissionReview :=
  {| v1beta1.Request := Some (requestOf uid raw); v1beta1.Response := None |}.

Definition emptyReview : v1beta1.AdmissionReview :=
  {| v1beta1.Request := None; v1beta1.Response := None |}.

(** The bodies the sample decoder understands: a review of each sample
    pod, a review of a document that is no pod, and a review that has no
    request. *)
Definition reviews : gmap string v1beta1.AdmissionReview :=
  list_to_map
    [("review-wanted", reviewOf "uid-1" "wanted");
     ("review-injected", reviewOf "uid-2" "injected");
     ("review-garbage", reviewOf "uid-3" "garbage");
     ("review-without-request", emptyReview)].

Definition Decode (body : string) : v1beta1.AdmissionReview * option string :=
  match reviews !! body with
  | Some review => (review, None)
  | None => (emptyReview, Some "couldn't get version/kind; json parse error")
  end.

(** A serialiser that never fails: the operation names and paths, one
    per line. *)
Definition Marshal (p : list operation) : result string :=
  Ok (fold_right (fun o acc => Operation o +:+ " " +:+ Path o +:+ ";" +:+ acc) "" p).

(** A serialiser that fails on every input. *)
Definition failingMarshal (p : list operation) : result string :=
  Err "json: unsupported value".

Definition post (body : string) : HttpRequest :=
  {| Body := Some (Ok body); ContentType := "application/json" |}.

Definition params : WebHookParameters :=
  {| Port := 443; CertFile := "/etc/certs/cert.pem"; KeyFile := "/etc/certs/key.pem";
     SidecarConfigFile := "/etc/config/sidecarconfig.yaml";
     HealthCheckInterval := 0; HealthCheckFile := "" |}.

Definition yamlUnmarshal (data : string) : result Config :=
  if String.eqb data "sidecar" then Ok sidecar
  else if String.eqb data "other" then Ok otherSidecar
  else Err "yaml: did not find expected key".

Definition X509KeyPair (certPEM keyPEM : string) : result Certificate :=
  if String.eqb certPEM "" || String.eqb keyPEM "" then
    Err "tls: failed to find any PEM data in certificate input"
  else Ok {| CertPEM := certPEM; KeyPEM := keyPEM |}.

(** Files on disk with a configuration that does not parse. *)
Definition brokenConfigFiles : gmap string string :=
  list_to_map
    [("/etc/config/sidecarconfig.yaml", "containers: [");
     ("/etc/certs/cert.pem", "cert-2");
     ("/etc/certs/key.pem", "key-2")].

(** Files on disk with a good configuration and no key file. *)
Definition missingKeyFiles : gmap string string :=
  list_to_map
    [("/etc/config/sidecarconfig.yaml", "other");
     ("/etc/certs/cert.pem", "cert-2")].

Definition goodFiles : gmap string string :=
  list_to_map
    [("/etc/config/sidecarconfig.yaml", "other");
     ("/etc/certs/cert.pem", "cert-2");
     ("/etc/certs/key.pem", "key-2")].

(** A watcher that can watch every directory but one. *)
Definition Watch (dir : string) : option string :=
  if String.eqb dir "/etc/secret/" then Some "permission denied" else None.

Definition idle : loop :=
  {| server := webhook; timerArmed := false; running := true |}.

End Sample.

(** * Properties *)

(** ** Strings *)





(** ** The decision *)



(** The eighteen combinations of the policy table: only "Yes", "Y" and
    "YES" with the status unset or "pending" require mutation. *)
Example policy_table :
  map (fun inject =>
         map (fun status => requiredMutation (Sample.annotated inject status))
           [None; Some "Injected"; Some "pending"])
    [None; Some "n"; Some "Yes"; Some "Y"; Some "no"; Some "YES"]
  = [ [false; false; false];
      [false; false; false];
      [true; false; true];
      [true; false; true];
      [false; false; false];
      [true; false; true] ].
Proof. vm_compute. reflexivity. Qed.

Example policy_without_annotations :
  requiredMutation (corev1.ObjectMeta Sample.bare) = false
  /\ requiredMutation (corev1.ObjectMeta Sample.pending) = true.
Proof. split; vm_compute; reflexivity. Qed.

Section DecisionFacts.

Variable Unmarshal : string -> result corev1.Pod.
Variable Marshal : list operation -> result string.
Variable SetDefaults_Container : corev1.Container -> corev1.Container.
Variable SetDefaults_Volume : corev1.Volume -> corev1.Volume.
Variable SetDefaults_LocalObjectReference :
  corev1.LocalObjectReference -> corev1.LocalObjectReference.

Local Abbreviation engine :=
  (mutation Unmarshal Marshal SetDefaults_Container SetDefaults_Volume
     SetDefaults_LocalObjectReference).



End DecisionFacts.


(** ** The shape of the patch *)

Ltac fold_appends IH :=
  simpl; rewrite IH, <- app_assoc; reflexivity.

Lemma insertContainer_rest (path : string) (add : list corev1.Container)
    (p : list operation) :
  fold_left (insertContainerStep path) add (false, p)
  = (false, p ++ appendOps OneContainer add path).
Proof.
  revert p. induction add as [| a add IH]; intros p.
  - simpl. rewrite app_nil_r. reflexivity.
  - fold_appends IH.
Qed.

Lemma insertVolume_rest (path : string) (add : list corev1.Volume)
    (p : list operation) :
  fold_left (insertVolumeStep path) add (false, p)
  = (false, p ++ appendOps OneVolume add path).
Proof.
  revert p. induction add as [| a add IH]; intros p.
  - simpl. rewrite app_nil_r. reflexivity.
  - fold_appends IH.
Qed.

Lemma insertImagePullSecrets_rest (path : string)
    (add : list corev1.LocalObjectReference) (p : list operation) :
  fold_left (insertImagePullSecretsStep path) add (false, p)
  = (false, p ++ appendOps OneSecret add path).
Proof.
  revert p. induction add as [| a add IH]; intros p.
  - simpl. rewrite app_nil_r. reflexivity.
  - fold_appends IH.
Qed.

Lemma insertContainer_shape (dest add : list corev1.Container) (path : string) :
  insertContainer dest add path
  = createThenAppend OneContainer ContainerList dest add path.
Proof.
  unfold insertContainer, createThenAppend.
  destruct dest as [| d dest]; simpl.
  - destruct add as [| a add]; [reflexivity |].
    simpl. rewrite insertContainer_rest. reflexivity.
  - rewrite insertContainer_rest. destruct add; reflexivity.
Qed.

Lemma insertVolume_shape (dest add : list corev1.Volume) (path : string) :
  insertVolume dest add path = createThenAppend OneVolume VolumeList dest add path.
Proof.
  unfold insertVolume, createThenAppend.
  destruct dest as [| d dest]; simpl.
  - destruct add as [| a add]; [reflexivity |].
    simpl. rewrite insertVolume_rest. reflexivity.
  - rewrite insertVolume_rest. destruct add; reflexivity.
Qed.

Lemma insertImagePullSecrets_shape (dest add : list corev1.LocalObjectReference)
    (path : string) :
  insertImagePullSecrets dest add path
  = createThenAppend OneSecret SecretList dest add path.
Proof.
  unfold insertImagePullSecrets, createThenAppend.
  destruct dest as [| d dest]; simpl.
  - destruct add as [| a add]; [reflexivity |].
    simpl. rewrite insertImagePullSecrets_rest. reflexivity.
  - rewrite insertImagePullSecrets_rest. destruct add; reflexivity.
Qed.

(** C2, as the code has it.  For every pod and sidecar configuration the
    container part of the patch is one [add] per incoming container, in
    incoming order: on a pod with containers each of them is at
    "/spec/containers/-"; on a pod without containers the first is at
    "/spec/containers" with the one-element list of the first container as
    its value, and every later one is at "/spec/containers/-" (an empty
    incoming list gives no operation).  Volumes and image pull secrets
    follow the same policy at their paths, and the patch is these three
    parts followed by the annotation part. *)
Theorem insert_patch_shape (pod : corev1.Pod) (sidecarConfig : Config)
    (annotations : gmap string string) :
  insertContainer (corev1.Containers (corev1.Spec pod)) (Containers sidecarConfig)
      "/spec/containers"
    = createThenAppend OneContainer ContainerList
        (corev1.Containers (corev1.Spec pod)) (Containers sidecarConfig)
        "/spec/containers"
  /\ insertVolume (corev1.Volumes (corev1.Spec pod)) (Volumes sidecarConfig)
       "/spec/volumes"
     = createThenAppend OneVolume VolumeList
         (corev1.Volumes (corev1.Spec pod)) (Volumes sidecarConfig) "/spec/volumes"
  /\ insertImagePullSecrets (corev1.ImagePullSecrets (corev1.Spec pod))
       (ImagePullSecret sidecarConfig) "/spec/imagePullSecrets"
     = createThenAppend OneSecret SecretList
         (corev1.ImagePullSecrets (corev1.Spec pod)) (ImagePullSecret sidecarConfig)
         "/spec/imagePullSecrets"
  /\ patchOperations pod sidecarConfig annotations
     = createThenAppend OneContainer ContainerList
         (corev1.Containers (corev1.Spec pod)) (Containers sidecarConfig)
         "/spec/containers"
       ++ createThenAppend OneVolume VolumeList
            (corev1.Volumes (corev1.Spec pod)) (Volumes sidecarConfig) "/spec/volumes"
       ++ createThenAppend OneSecret SecretList
            (corev1.ImagePullSecrets (corev1.Spec pod)) (ImagePullSecret sidecarConfig)
            "/spec/imagePullSecrets"
       ++ annotationUpdate (metav1.Annotations (corev1.ObjectMeta pod)) annotations.
Proof.
  unfold patchOperations.
  rewrite insertContainer_shape, insertVolume_shape, insertImagePullSecrets_shape.
  repeat split; reflexivity.
Qed.

(** C2 as stated fails: a pod without containers and a sidecar
    configuration with two containers get two operations, not the single
    [add] of the two-element list. *)
Lemma insert_into_empty_is_not_one_op :
  requiredMutation (corev1.ObjectMeta Sample.empty) = true
  /\ corev1.Containers (corev1.Spec Sample.empty) = []
  /\ insertContainer (corev1.Containers (corev1.Spec Sample.empty))
       (Containers Sample.sidecar) "/spec/containers"
     = [addOp "/spec/containers" (ContainerList [Sample.mesher]);
        addOp "/spec/containers/-" (OneContainer Sample.collector)]
  /\ insertContainer (corev1.Containers (corev1.Spec Sample.empty))
       (Containers Sample.sidecar) "/spec/containers"
     <> wholeListOp ContainerList (Containers Sample.sidecar) "/spec/containers".
Proof.
  split; [vm_compute; reflexivity |].
  split; [reflexivity |].
  split; [reflexivity |].
  rewrite insertContainer_shape. simpl. unfold wholeListOp, appendOps. simpl.
  intros H. discriminate H.
Qed.

(** A pod with one container and a sidecar configuration with two: two
    appends, in the order of the configuration. *)
Example insert_into_existing :
  insertContainer (corev1.Containers (corev1.Spec Sample.wanted))
    (Containers Sample.sidecar) "/spec/containers"
  = [addOp "/spec/containers/-" (OneContainer Sample.mesher);
     addOp "/spec/containers/-" (OneContainer Sample.collector)].
Proof. reflexivity. Qed.

(** ** The annotation part *)

Lemma annotationUpdate_single (dest : option (gmap string string))
    (key value : string) :
  annotationUpdate dest {[ key := value ]}
  = snd (annotationUpdateStep (dest, []) (key, value)).
Proof.
  unfold annotationUpdate. rewrite map_to_list_singleton. reflexivity.
Qed.

Lemma annotationUpdate_status_shape (dest : option (gmap string string)) :
  annotationUpdate dest {[ webhookStatusKey := "injected" ]}
  = match dest with
    | None => [addStatusOp]
    | Some m =>
      match m !! webhookStatusKey with
      | None => [addStatusOp]
      | Some EmptyString => [addStatusOp]
      | Some (String _ _) => [replaceStatusOp]
      end
    end.
Proof.
  rewrite annotationUpdate_single.
  destruct dest as [m |]; [| reflexivity].
  unfold annotationUpdateStep, index.
  destruct (m !! webhookStatusKey) as [[| c s] |]; reflexivity.
Qed.

(** C3.  For every pod, the annotation part of the patch is the single
    [add] at "/metadata/annotations" of the one-key map from the status key
    to "injected" when the pod has no annotations map, or the status key is
    absent from it or maps to the empty string; it is the single [replace]
    at "/metadata/annotations/<status-key>" with value "injected" when the
    status key has a non-empty value.  It is the last part of the patch. *)
Theorem annotation_patch_shape (pod : corev1.Pod) (sidecarConfig : Config) :
  let dest := metav1.Annotations (corev1.ObjectMeta pod) in
  annotationUpdate dest {[ webhookStatusKey := "injected" ]}
    = match dest with
      | None => [addStatusOp]
      | Some m =>
        match m !! webhookStatusKey with
        | None => [addStatusOp]
        | Some EmptyString => [addStatusOp]
        | Some (String _ _) => [replaceStatusOp]
        end
      end
  /\ exists entries,
       patchOperations pod sidecarConfig {[ webhookStatusKey := "injected" ]}
       = entries ++ annotationUpdate dest {[ webhookStatusKey := "injected" ]}.
Proof.
  intros dest. split.
  - apply annotationUpdate_status_shape.
  - unfold patchOperations. fold dest.
    eexists. rewrite !app_assoc. reflexivity.
Qed.

(** ** The handler *)

Section HandlerFacts.

Variable Unmarshal : string -> result corev1.Pod.
Variable Marshal : list operation -> result string.
Variable Decode : string -> v1beta1.AdmissionReview * option string.
Variable SetDefaults_Container : corev1.Container -> corev1.Container.
Variable SetDefaults_Volume : corev1.Volume -> corev1.Volume.
Variable SetDefaults_LocalObjectReference :
  corev1.LocalObjectReference -> corev1.LocalObjectReference.

Local Abbreviation engine :=
  (mutation Unmarshal Marshal SetDefaults_Container SetDefaults_Volume
     SetDefaults_LocalObjectReference).
Local Abbreviation serve :=
  (webhookMutation Unmarshal Marshal Decode SetDefaults_Container
     SetDefaults_Volume SetDefaults_LocalObjectReference).

(** [mutation] reads [req.Object.Raw] before it looks at anything else. *)
Lemma mutation_nil_request (w : WebHookServer) (ar : v1beta1.AdmissionReview) :
  v1beta1.Request ar = None -> engine w ar = Panics.
Proof. intros H. unfold mutation. rewrite H. reflexivity. Qed.

Lemma mutation_returns (w : WebHookServer) (ar : v1beta1.AdmissionReview)
    (req : v1beta1.AdmissionRequest) :
  v1beta1.Request ar = Some req ->
  exists w' resp, engine w ar = Returns (w', resp).
Proof.
  intros H. unfold mutation. rewrite H.
  destruct (Unmarshal _) as [pod | msg]; [| eauto].
  destruct (negb _); [eauto |].
  simpl. destruct (createpatch _ _ _ _); eauto.
Qed.

Lemma serve_reaches_decode (w : WebHookServer) (r : HttpRequest) (body : string) :
  Body r = Some (Ok body) ->
  body <> "" ->
  ContentType r = "application/json" ->
  serve w r
  = let '(aRequest, err) := Decode body in
    match
      match err with
      | Some msg => Returns (w, Some (errorResponse msg))
      | None =>
        match engine w aRequest with
        | Panics => Panics
        | Returns (w', resp) => Returns (w', Some resp)
        end
      end
    with
    | Panics => Panics
    | Returns (w', aResponse) =>
      Returns (w', Some {| v1beta1.Request := None;
                           v1beta1.Response :=
                             match aResponse with
                             | None => None
                             | Some resp =>
                               match v1beta1.Request aRequest with
                               | Some req => Some (withUID resp (v1beta1.UID req))
                               | None => Some resp
                               end
                             end |})
    end.
Proof.
  intros Hbody Hne Hct. unfold webhookMutation. rewrite Hbody, Hct.
  destruct body as [| c body]; [congruence |]. reflexivity.
Qed.

(** A review that decodes without a request makes the handler panic. *)
Lemma serve_nil_request (w : WebHookServer) (r : HttpRequest) (body : string)
    (aRequest : v1beta1.AdmissionReview) :
  Body r = Some (Ok body) ->
  body <> "" ->
  ContentType r = "application/json" ->
  Decode body = (aRequest, None) ->
  v1beta1.Request aRequest = None ->
  serve w r = Panics.
Proof.
  intros Hbody Hne Hct Hdec Hreq.
  rewrite (serve_reaches_decode w r body Hbody Hne Hct), Hdec.
  rewrite (mutation_nil_request w aRequest Hreq). reflexivity.
Qed.

(** C5.  A request with a body and the JSON content type whose review
    carries a request, whether decoding reported an error or not, is
    answered with a review whose response has the UID of the request. *)
Theorem response_uid_mirrors_request (w : WebHookServer) (r : HttpRequest)
    (body : string) (aRequest : v1beta1.AdmissionReview) (err : option string)
    (req : v1beta1.AdmissionRequest) :
  Body r = Some (Ok body) ->
  body <> "" ->
  ContentType r = "application/json" ->
  Decode body = (aRequest, err) ->
  v1beta1.Request aRequest = Some req ->
  exists w' resp,
    serve w r = Returns (w', Some {| v1beta1.Request := None;
                                     v1beta1.Response := Some resp |})
    /\ v1beta1.RespUID resp = v1beta1.UID req.
Proof.
  intros Hbody Hne Hct Hdec Hreq.
  rewrite (serve_reaches_decode w r body Hbody Hne Hct), Hdec, Hreq.
  destruct err as [msg |].
  - eexists _, _. split; reflexivity.
  - destruct (mutation_returns w aRequest req Hreq) as (w' & resp & ->).
    eexists _, _. split; reflexivity.
Qed.

(** C9.  Provided [json.Marshal] serialises every list of operations,
    the engine, on a review that carries a request, returns; its answer
    is the error result (message set, not allowed, no patch, server
    untouched) exactly when the raw object fails to deserialise; and when
    it deserialises the answer is allowed, without a result message, and
    carries a patch exactly when mutation is required. *)
Theorem engine_error_iff_bad_resource (w : WebHookServer)
    (ar : v1beta1.AdmissionReview) (req : v1beta1.AdmissionRequest) :
  v1beta1.Request ar = Some req ->
  (forall p, exists bytes, Marshal p = Ok bytes) ->
  exists w' resp,
    engine w ar = Returns (w', resp)
    /\ (v1beta1.Result resp <> None <->
        exists msg, Unmarshal (v1beta1.Raw req) = Err msg)
    /\ (forall msg, Unmarshal (v1beta1.Raw req) = Err msg ->
        resp = errorResponse msg /\ v1beta1.Patch resp = None /\ w' = w)
    /\ (forall pod, Unmarshal (v1beta1.Raw req) = Ok pod ->
        v1beta1.Allowed resp = true
        /\ v1beta1.Result resp = None
        /\ (v1beta1.Patch resp <> None <->
            requiredMutation (corev1.ObjectMeta pod) = true)).
Proof.
  intros Hreq Hmarshal. unfold mutation. rewrite Hreq.
  destruct (Unmarshal (v1beta1.Raw req)) as [pod | msg].
  - destruct (requiredMutation (corev1.ObjectMeta pod)) eqn:Hneed; simpl.
    + unfold createpatch.
      destruct (Hmarshal (patchOperations pod
                  {| Containers := map SetDefaults_Container (Containers (SidecarConfig w));
                     Volumes := map SetDefaults_Volume (Volumes (SidecarConfig w));
                     ImagePullSecret :=
                       map SetDefaults_LocalObjectReference
                         (ImagePullSecret (SidecarConfig w)) |}
                  {[ webhookStatusKey := "injected" ]})) as [bytes ->].
      eexists _, _. split; [reflexivity |]. simpl.
      split; [split; [congruence | intros [msg H]; discriminate H] |].
      split; [intros msg H; discriminate H |].
      intros pod' H. injection H as <-. rewrite Hneed.
      split; [reflexivity |]. split; [reflexivity |].
      split; [reflexivity | congruence].
    + eexists _, _. split; [reflexivity |]. simpl.
      split; [split; [congruence | intros [msg H]; discriminate H] |].
      split; [intros msg H; discriminate H |].
      intros pod' H. injection H as <-. rewrite Hneed.
      split; [reflexivity |]. split; [reflexivity |].
      split; [congruence | discriminate].
  - eexists _, _. split; [reflexivity |]. simpl.
    split; [split; [eauto | discriminate] |].
    split.
    + intros msg' H. injection H as <-. repeat split; reflexivity.
    + intros pod H. discriminate H.
Qed.

End HandlerFacts.

(** C4 fails on the code.  The body "review-without-request" has the JSON
    content type and decodes, without an error, to a review that carries no
    request; the handler panics on it and nothing is written, although the
    handler itself tests [aRequest.Request != nil] a few lines later. *)
Theorem review_without_request_panics :
  Sample.Decode "review-without-request" = (Sample.emptyReview, None)
  /\ v1beta1.Request Sample.emptyReview = None
  /\ webhookMutation Sample.Unmarshal Sample.Marshal Sample.Decode
       k8s.SetDefaults_Container k8s.SetDefaults_Volume
       k8s.SetDefaults_LocalObjectReference
       Sample.webhook (Sample.post "review-without-request")
     = Panics.
Proof.
  split; [vm_compute; reflexivity |].
  split; [reflexivity |].
  vm_compute. reflexivity.
Qed.

Lemma response_uid_mirrors_request_witness :
  Body (Sample.post "review-wanted") = Some (Ok "review-wanted")
  /\ "review-wanted" <> ""
  /\ ContentType (Sample.post "review-wanted") = "application/json"
  /\ Sample.Decode "review-wanted" = (Sample.reviewOf "uid-1" "wanted", None)
  /\ v1beta1.Request (Sample.reviewOf "uid-1" "wanted")
     = Some (Sample.requestOf "uid-1" "wanted")
  /\ exists w' resp,
       webhookMutation Sample.Unmarshal Sample.Marshal Sample.Decode
         k8s.SetDefaults_Container k8s.SetDefaults_Volume
         k8s.SetDefaults_LocalObjectReference
         Sample.webhook (Sample.post "review-wanted")
       = Returns (w', Some {| v1beta1.Request := None;
                              v1beta1.Response := Some resp |})
       /\ v1beta1.RespUID resp = "uid-1".
Proof.
  assert (H1 : Body (Sample.post "review-wanted") = Some (Ok "review-wanted"))
    by reflexivity.
  assert (H2 : "review-wanted" <> "") by discriminate.
  assert (H3 : ContentType (Sample.post "review-wanted") = "application/json")
    by reflexivity.
  assert (H4 : Sample.Decode "review-wanted"
               = (Sample.reviewOf "uid-1" "wanted", None))
    by (vm_compute; reflexivity).
  assert (H5 : v1beta1.Request (Sample.reviewOf "uid-1" "wanted")
               = Some (Sample.requestOf "uid-1" "wanted")) by reflexivity.
  repeat (split; [assumption |]).
  exact (response_uid_mirrors_request Sample.Unmarshal Sample.Marshal Sample.Decode
           k8s.SetDefaults_Container k8s.SetDefaults_Volume
           k8s.SetDefaults_LocalObjectReference
           Sample.webhook _ _ _ _ _ H1 H2 H3 H4 H5).
Defined.

Lemma engine_error_iff_bad_resource_witness :
  v1beta1.Request (Sample.reviewOf "uid-3" "garbage")
    = Some (Sample.requestOf "uid-3" "garbage")
  /\ (forall p, exists bytes, Sample.Marshal p = Ok bytes)
  /\ exists w' resp,
       mutation Sample.Unmarshal Sample.Marshal k8s.SetDefaults_Container
         k8s.SetDefaults_Volume k8s.SetDefaults_LocalObjectReference
         Sample.webhook (Sample.reviewOf "uid-3" "garbage")
       = Returns (w', resp)
       /\ v1beta1.Result resp <> None.
Proof.
  assert (H1 : v1beta1.Request (Sample.reviewOf "uid-3" "garbage")
               = Some (Sample.requestOf "uid-3" "garbage")) by reflexivity.
  assert (H2 : forall p, exists bytes, Sample.Marshal p = Ok bytes)
    by (intros p; eexists; reflexivity).
  split; [exact H1 |]. split; [exact H2 |].
  destruct (engine_error_iff_bad_resource Sample.Unmarshal Sample.Marshal
              k8s.SetDefaults_Container k8s.SetDefaults_Volume
              k8s.SetDefaults_LocalObjectReference
              Sample.webhook _ _ H1 H2) as (w' & resp & Hrun & Herr & _).
  exists w', resp. split; [exact Hrun |].
  apply Herr. eexists. vm_compute. reflexivity.
Defined.

(** Without the proviso of C9 the second error return of [mutation] is
    reached: a serialiser that fails makes the engine answer with the error
    result on a pod that deserialised. *)
Remark marshal_failure_is_reported :
  mutation Sample.Unmarshal Sample.failingMarshal k8s.SetDefaults_Container
    k8s.SetDefaults_Volume k8s.SetDefaults_LocalObjectReference
    Sample.webhook (Sample.reviewOf "uid-1" "wanted")
  = Returns ({| SidecarConfig :=
                  {| Containers := map k8s.SetDefaults_Container
                                     (Containers Sample.sidecar);
                     Volumes := map k8s.SetDefaults_Volume (Volumes Sample.sidecar);
                     ImagePullSecret := ImagePullSecret Sample.sidecar |};
                TLSConfig := [Sample.oldPair] |},
             errorResponse "json: unsupported value").
Proof. vm_compute. reflexivity. Qed.

(** ** Annotations under other keys *)






Section OtherKeys.

Variable Marshal : list operation -> result string.


End OtherKeys.


(** ** Reload *)

Section ReloadFacts.

Variable yamlUnmarshal : string -> result Config.
Variable X509KeyPair : string -> string -> result Certificate.

Lemma reload_failure (p : WebHookParameters) (fs : gmap string string)
    (w : WebHookServer) :
  (exists e, loadConfig yamlUnmarshal fs (SidecarConfigFile p) = Err e)
  \/ (exists e, LoadX509KeyPair X509KeyPair fs (CertFile p) (KeyFile p) = Err e) ->
  reload yamlUnmarshal X509KeyPair p fs w = w.
Proof.
  intros [[e H] | [e H]]; unfold reload.
  - rewrite H. reflexivity.
  - rewrite H. destruct (loadConfig _ _ _); reflexivity.
Qed.

Lemma reload_cases (p : WebHookParameters) (fs : gmap string string)
    (w : WebHookServer) :
  reload yamlUnmarshal X509KeyPair p fs w = w
  \/ exists sidecarConfig keyPair,
       loadConfig yamlUnmarshal fs (SidecarConfigFile p) = Ok sidecarConfig
       /\ LoadX509KeyPair X509KeyPair fs (CertFile p) (KeyFile p) = Ok keyPair
       /\ reload yamlUnmarshal X509KeyPair p fs w
          = {| SidecarConfig := sidecarConfig; TLSConfig := [keyPair] |}.
Proof.
  unfold reload.
  destruct (loadConfig _ _ _) as [cfg | e]; [| left; reflexivity].
  destruct (LoadX509KeyPair _ _ _ _) as [keyPair | e]; [| left; reflexivity].
  right. eauto.
Qed.

(** C6.  When the timer fires and loading the configuration file or the
    key pair fails, the turn of the loop leaves the server, that is both
    the sidecar configuration and the TLS configuration, and the files as
    they were; the loop goes on with them through whatever turns follow. *)
Theorem failed_reload_keeps_state (p : WebHookParameters)
    (fs : gmap string string) (st : loop)
    (turns : list (gmap string string * event)) :
  (exists e, loadConfig yamlUnmarshal fs (SidecarConfigFile p) = Err e)
  \/ (exists e, LoadX509KeyPair X509KeyPair fs (CertFile p) (KeyFile p) = Err e) ->
  let st' := fst (RunStep yamlUnmarshal X509KeyPair p fs st TimerFired) in
  server st' = server st
  /\ SidecarConfig (server st') = SidecarConfig (server st)
  /\ TLSConfig (server st') = TLSConfig (server st)
  /\ running st' = running st
  /\ snd (RunStep yamlUnmarshal X509KeyPair p fs st TimerFired) = fs
  /\ Run yamlUnmarshal X509KeyPair p st ((fs, TimerFired) :: turns)
     = Run yamlUnmarshal X509KeyPair p
         {| server := server st; timerArmed := timerArmed st' ;
            running := running st |} turns.
Proof.
  intros Hfail st'.
  assert (Hsrv : server st' = server st).
  { unfold st', RunStep.
    destruct (running st); simpl; [| reflexivity].
    destruct (timerArmed st); simpl; [| reflexivity].
    apply reload_failure, Hfail. }
  assert (Hrun : running st' = running st).
  { unfold st', RunStep.
    destruct (running st) eqn:Hr; simpl; [| exact Hr].
    destruct (timerArmed st); simpl; [reflexivity | exact Hr]. }
  split; [exact Hsrv |].
  split; [rewrite Hsrv; reflexivity |].
  split; [rewrite Hsrv; reflexivity |].
  split; [exact Hrun |].
  split.
  { unfold RunStep. destruct (running st); simpl; [| reflexivity].
    destruct (timerArmed st); reflexivity. }
  simpl. fold st'. rewrite <- Hsrv, <- Hrun. destruct st'; reflexivity.
Qed.

End ReloadFacts.

Lemma failed_reload_keeps_state_witness :
  ((exists e, loadConfig Sample.yamlUnmarshal Sample.brokenConfigFiles
                (SidecarConfigFile Sample.params) = Err e)
   \/ (exists e, LoadX509KeyPair Sample.X509KeyPair Sample.brokenConfigFiles
                   (CertFile Sample.params) (KeyFile Sample.params) = Err e))
  /\ SidecarConfig
       (server (fst (RunStep Sample.yamlUnmarshal Sample.X509KeyPair Sample.params
                       Sample.brokenConfigFiles
                       {| server := Sample.webhook; timerArmed := true;
                          running := true |} TimerFired)))
     = Sample.sidecar.
Proof.
  assert (H : (exists e, loadConfig Sample.yamlUnmarshal Sample.brokenConfigFiles
                           (SidecarConfigFile Sample.params) = Err e)
              \/ (exists e, LoadX509KeyPair Sample.X509KeyPair Sample.brokenConfigFiles
                              (CertFile Sample.params) (KeyFile Sample.params) = Err e)).
  { left. eexists. vm_compute. reflexivity. }
  split; [exact H |].
  exact (proj1 (proj2
    (failed_reload_keeps_state Sample.yamlUnmarshal Sample.X509KeyPair Sample.params
       Sample.brokenConfigFiles
       {| server := Sample.webhook; timerArmed := true; running := true |} [] H))).
Defined.

(** A reload that finds both files good replaces the configuration and the
    certificate; one that finds no key file replaces neither. *)
Example reload_good_files :
  reload Sample.yamlUnmarshal Sample.X509KeyPair Sample.params Sample.goodFiles
    Sample.webhook
  = {| SidecarConfig := Sample.otherSidecar; TLSConfig := [Sample.newPair] |}.
Proof. vm_compute. reflexivity. Qed.

Example reload_missing_key :
  loadConfig Sample.yamlUnmarshal Sample.missingKeyFiles
    (SidecarConfigFile Sample.params) = Ok Sample.otherSidecar
  /\ reload Sample.yamlUnmarshal Sample.X509KeyPair Sample.params
       Sample.missingKeyFiles Sample.webhook
     = Sample.webhook.
Proof. split; vm_compute; reflexivity. Qed.

(** A burst of watch events arms the timer once: one reload follows, and a
    timer that was not armed again does nothing. *)
Example burst_then_one_reload :
  let st := {| server := Sample.webhook; timerArmed := false; running := true |} in
  let burst := repeat (Sample.goodFiles, WatchEvent true false) 5 in
  Run Sample.yamlUnmarshal Sample.X509KeyPair Sample.params st
    (burst ++ [(Sample.goodFiles, TimerFired); (Sample.brokenConfigFiles, TimerFired)])
  = {| server := {| SidecarConfig := Sample.otherSidecar;
                    TLSConfig := [Sample.newPair] |};
       timerArmed := false; running := true |}.
Proof. vm_compute. reflexivity. Qed.

(** ** What changes the sidecar configuration *)

Section ConfigFacts.

Variable Unmarshal : string -> result corev1.Pod.
Variable Marshal : list operation -> result string.
Variable SetDefaults_Container : corev1.Container -> corev1.Container.
Variable SetDefaults_Volume : corev1.Volume -> corev1.Volume.
Variable SetDefaults_LocalObjectReference :
  corev1.LocalObjectReference -> corev1.LocalObjectReference.
Variable yamlUnmarshal : string -> result Config.
Variable X509KeyPair : string -> string -> result Certificate.

(** C7, as the code has it.  A turn of the loop leaves the server as it
    is unless it is a reload that loaded both the configuration and the
    key pair, which replaces the configuration by the loaded one; and a
    request the engine answers leaves the TLS configuration as it is and
    leaves the sidecar configuration as it is when the pod fails to
    deserialise or does not require mutation, and otherwise rewrites its
    container, volume and pull secret entries to their defaulted form. *)
Theorem config_changes (p : WebHookParameters) (fs : gmap string string)
    (st : loop) (e : event) (w : WebHookServer) (ar : v1beta1.AdmissionReview) :
  (server (fst (RunStep yamlUnmarshal X509KeyPair p fs st e)) = server st
   \/ (e = TimerFired
       /\ exists sidecarConfig keyPair,
            loadConfig yamlUnmarshal fs (SidecarConfigFile p) = Ok sidecarConfig
            /\ LoadX509KeyPair X509KeyPair fs (CertFile p) (KeyFile p) = Ok keyPair
            /\ server (fst (RunStep yamlUnmarshal X509KeyPair p fs st e))
               = {| SidecarConfig := sidecarConfig; TLSConfig := [keyPair] |}))
  /\ match mutation Unmarshal Marshal SetDefaults_Container SetDefaults_Volume
             SetDefaults_LocalObjectReference w ar with
     | Panics => v1beta1.Request ar = None
     | Returns (w', _) =>
       TLSConfig w' = TLSConfig w
       /\ SidecarConfig w'
          = match v1beta1.Request ar with
            | None => SidecarConfig w
            | Some req =>
              match Unmarshal (v1beta1.Raw req) with
              | Err _ => SidecarConfig w
              | Ok pod =>
                if requiredMutation (corev1.ObjectMeta pod)
                then defaulted SetDefaults_Container SetDefaults_Volume
                       SetDefaults_LocalObjectReference (SidecarConfig w)
                else SidecarConfig w
              end
            end
     end.
Proof.
  split.
  - unfold RunStep.
    destruct (running st); simpl; [| left; reflexivity].
    destruct e as [| isModify isCreate | err | writable |]; simpl;
      try (left; reflexivity).
    + destruct (timerArmed st); simpl; [| left; reflexivity].
      destruct (reload_cases yamlUnmarshal X509KeyPair p fs (server st))
        as [H | (cfg & keyPair & H1 & H2 & H3)].
      * left. exact H.
      * right. split; [reflexivity |]. exists cfg, keyPair. auto.
    + destruct (isModify || isCreate); left; reflexivity.
    + destruct (healthEnabled p && writable); left; reflexivity.
  - unfold mutation.
    destruct (v1beta1.Request ar) as [req |]; [| reflexivity].
    destruct (Unmarshal (v1beta1.Raw req)) as [pod | msg]; [| split; reflexivity].
    destruct (requiredMutation (corev1.ObjectMeta pod)); simpl;
      [| split; reflexivity].
    destruct (createpatch _ _ _ _); split; reflexivity.
Qed.

End ConfigFacts.

(** C7 as stated fails: handling one request that requires mutation
    rewrites the containers and the volumes of the active configuration. *)
Lemma request_rewrites_active_config :
  exists w' resp,
    mutation Sample.Unmarshal Sample.Marshal k8s.SetDefaults_Container
      k8s.SetDefaults_Volume k8s.SetDefaults_LocalObjectReference
      Sample.webhook (Sample.reviewOf "uid-1" "wanted")
    = Returns (w', resp)
    /\ Containers (SidecarConfig w')
       = [ {| corev1.ContainerName := "mesher";
              corev1.Image := "gochassis/mesher:latest";
              corev1.TerminationMessagePath := "/dev/termination-log";
              corev1.TerminationMessagePolicy := "File" |};
           Sample.collector ]
    /\ Containers (SidecarConfig w') <> Containers (SidecarConfig Sample.webhook)
    /\ Volumes (SidecarConfig w') <> Volumes (SidecarConfig Sample.webhook).
Proof.
  eexists _, _. split; [vm_compute; reflexivity |].
  split; [reflexivity |].
  split; intros H; discriminate H.
Qed.

(** ** The lock *)

Section LockFacts.

Variable SetDefaults_Container : corev1.Container -> corev1.Container.
Variable SetDefaults_Volume : corev1.Volume -> corev1.Volume.
Variable SetDefaults_LocalObjectReference :
  corev1.LocalObjectReference -> corev1.LocalObjectReference.

Local Abbreviation handle :=
  (handlerStep SetDefaults_Container SetDefaults_Volume
     SetDefaults_LocalObjectReference).

(** The reload makes its two assignments between [Lock] and [Unlock]. *)
Lemma reload_in_one_critical_section (sidecarConfig : Config)
    (keyPair : Certificate) (w : WebHookServer) :
  let s1 := reloaderStep sidecarConfig keyPair (startShared w) in
  let s2 := reloaderStep sidecarConfig keyPair s1 in
  let s3 := reloaderStep sidecarConfig keyPair s2 in
  let s4 := reloaderStep sidecarConfig keyPair s3 in
  Lock s1 = Some Reloader /\ wh s1 = w
  /\ Lock s2 = Some Reloader /\ Lock s3 = Some Reloader
  /\ Lock s4 = None
  /\ wh s4 = {| SidecarConfig := sidecarConfig; TLSConfig := [keyPair] |}.
Proof. repeat split; reflexivity. Qed.

(** The request path moves whoever holds the lock, and leaves it alone. *)
Lemma handler_ignores_lock (pod : corev1.Pod) (s : shared) :
  Lock (handle pod s) = Lock s
  /\ (handlerPC s = 0 -> handlerPC (handle pod s) = 1)
  /\ (handlerPC s = 1 -> handlerPC (handle pod s) = 2).
Proof.
  unfold handlerStep.
  destruct (handlerPC s) as [| [| n]]; simpl; repeat split; congruence.
Qed.

(** Run on its own, the request path does what [mutation] does to the
    configuration and collects the operations [mutation] serialises. *)
Lemma handler_alone (pod : corev1.Pod) (w : WebHookServer) :
  let s := handle pod (handle pod (startShared w)) in
  SidecarConfig (wh s)
  = defaulted SetDefaults_Container SetDefaults_Volume
      SetDefaults_LocalObjectReference (SidecarConfig w)
  /\ handlerOps s
     = patchOperations pod (SidecarConfig (wh s))
         {[ webhookStatusKey := "injected" ]}.
Proof. split; reflexivity. Qed.

End LockFacts.

(** C8 fails on the code.  With the reload at its second assignment, a
    request that requires mutation is handled to its end: both times it
    uses the sidecar configuration the lock is held by the reload, and what
    is on the server then is the new configuration next to the old
    certificate. *)
Theorem handler_runs_inside_critical_section :
  let s :=
    runSchedule k8s.SetDefaults_Container k8s.SetDefaults_Volume
      k8s.SetDefaults_LocalObjectReference
      Sample.otherSidecar Sample.newPair Sample.wanted
      (startShared Sample.webhook)
      [Reloader; Reloader; Handler; Handler; Reloader; Reloader] in
  requiredMutation (corev1.ObjectMeta Sample.wanted) = true
  /\ sightings s
     = [ {| seenConfig := Sample.otherSidecar; seenTLS := [Sample.oldPair];
            seenLock := Some Reloader |};
         {| seenConfig := Sample.otherSidecar; seenTLS := [Sample.oldPair];
            seenLock := Some Reloader |} ]
  /\ handlerPC s = 2
  /\ reloadPC s = 4
  /\ wh s = {| SidecarConfig := Sample.otherSidecar; TLSConfig := [Sample.newPair] |}.
Proof.
  split; [vm_compute; reflexivity |].
  repeat split; vm_compute; reflexivity.
Qed.

(** A reload between the two uses: the defaults go to the configuration
    that is replaced, and the patch is built from the new one. *)
Remark reload_between_the_two_uses :
  let s :=
    runSchedule k8s.SetDefaults_Container k8s.SetDefaults_Volume
      k8s.SetDefaults_LocalObjectReference
      Sample.sidecar Sample.newPair Sample.wanted
      (startShared Sample.webhook)
      [Handler; Reloader; Reloader; Reloader; Reloader; Handler] in
  map seenConfig (sightings s) = [Sample.sidecar; Sample.sidecar]
  /\ handlerOps s
     = patchOperations Sample.wanted Sample.sidecar {[ webhookStatusKey := "injected" ]}
  /\ handlerOps s
     <> patchOperations Sample.wanted
          (defaulted k8s.SetDefaults_Container k8s.SetDefaults_Volume
             k8s.SetDefaults_LocalObjectReference Sample.sidecar)
          {[ webhookStatusKey := "injected" ]}.
Proof.
  split; [vm_compute; reflexivity |].
  split; [vm_compute; reflexivity |].
  vm_compute. intros H. discriminate H.
Qed.


(** * Further properties of the code *)

(** ** The insert functions *)

Lemma length_createThenAppend {A : Type} (one : A -> PatchValue)
    (many : list A -> PatchValue) (dest add : list A) (path : string) :
  length (createThenAppend one many dest add path) = length add.
Proof.
  unfold createThenAppend, appendOps.
  destruct dest, add; simpl; rewrite ?length_map; reflexivity.
Qed.

Lemma Forall_createThenAppend {A : Type} (P : operation -> Prop)
    (one : A -> PatchValue) (many : list A -> PatchValue)
    (dest add : list A) (path : string) :
  (forall a, P (addOp path (many [a]))) ->
  (forall a, P (addOp (path +:+ "/-") (one a))) ->
  Forall P (createThenAppend one many dest add path).
Proof.
  intros Hmany Hone.
  assert (Happ : forall l, Forall P (appendOps one l path)).
  { intros l. unfold appendOps. apply Forall_forall. intros o Ho.
    apply list_elem_of_In, in_map_iff in Ho as (a & <- & _). apply Hone. }
  unfold createThenAppend.
  destruct dest, add; try apply Happ.
  constructor; [apply Hmany | apply Happ].
Qed.

(** X1.  Whatever the pod already holds, each insert function emits one
    operation per incoming entry, every one of them an [add] at the given
    path or at its append marker; with nothing to insert it emits
    nothing. *)
Theorem insert_one_add_per_entry (path : string)
    (destC addC : list corev1.Container) (destV addV : list corev1.Volume)
    (destS addS : list corev1.LocalObjectReference) :
  let shape (o : operation) :=
    Operation o = "add" /\ (Path o = path \/ Path o = path +:+ "/-") in
  length (insertContainer destC addC path) = length addC
  /\ length (insertVolume destV addV path) = length addV
  /\ length (insertImagePullSecrets destS addS path) = length addS
  /\ Forall shape (insertContainer destC addC path)
  /\ Forall shape (insertVolume destV addV path)
  /\ Forall shape (insertImagePullSecrets destS addS path)
  /\ insertContainer destC [] path = []
  /\ insertVolume destV [] path = []
  /\ insertImagePullSecrets destS [] path = [].
Proof.
  intros shape.
  rewrite !insertContainer_shape, !insertVolume_shape, !insertImagePullSecrets_shape.
  rewrite !length_createThenAppend.
  split; [reflexivity |]. split; [reflexivity |]. split; [reflexivity |].
  split; [apply Forall_createThenAppend; intros a; split; simpl; auto |].
  split; [apply Forall_createThenAppend; intros a; split; simpl; auto |].
  split; [apply Forall_createThenAppend; intros a; split; simpl; auto |].
  split; [destruct destC; reflexivity |].
  split; [destruct destV; reflexivity | destruct destS; reflexivity].
Qed.

Lemma carriedContainers_app (p q : list operation) :
  carriedContainers (p ++ q) = carriedContainers p ++ carriedContainers q.
Proof. unfold carriedContainers. rewrite map_app, concat_app. reflexivity. Qed.

Lemma carriedVolumes_app (p q : list operation) :
  carriedVolumes (p ++ q) = carriedVolumes p ++ carriedVolumes q.
Proof. unfold carriedVolumes. rewrite map_app, concat_app. reflexivity. Qed.

Lemma carriedSecrets_app (p q : list operation) :
  carriedSecrets (p ++ q) = carriedSecrets p ++ carriedSecrets q.
Proof. unfold carriedSecrets. rewrite map_app, concat_app. reflexivity. Qed.

Lemma carried_appendOps_containers (add : list corev1.Container) (path : string) :
  carriedContainers (appendOps OneContainer add path) = add
  /\ carriedVolumes (appendOps OneContainer add path) = []
  /\ carriedSecrets (appendOps OneContainer add path) = [].
Proof.
  unfold carriedContainers, carriedVolumes, carriedSecrets, appendOps.
  induction add as [| a add (IH1 & IH2 & IH3)]; simpl; [auto |].
  rewrite IH1, IH2, IH3. auto.
Qed.

Lemma carried_appendOps_volumes (add : list corev1.Volume) (path : string) :
  carriedContainers (appendOps OneVolume add path) = []
  /\ carriedVolumes (appendOps OneVolume add path) = add
  /\ carriedSecrets (appendOps OneVolume add path) = [].
Proof.
  unfold carriedContainers, carriedVolumes, carriedSecrets, appendOps.
  induction add as [| a add (IH1 & IH2 & IH3)]; simpl; [auto |].
  rewrite IH1, IH2, IH3. auto.
Qed.

Lemma carried_appendOps_secrets (add : list corev1.LocalObjectReference)
    (path : string) :
  carriedContainers (appendOps OneSecret add path) = []
  /\ carriedVolumes (appendOps OneSecret add path) = []
  /\ carriedSecrets (appendOps OneSecret add path) = add.
Proof.
  unfold carriedContainers, carriedVolumes, carriedSecrets, appendOps.
  induction add as [| a add (IH1 & IH2 & IH3)]; simpl; [auto |].
  rewrite IH1, IH2, IH3. auto.
Qed.

Lemma carried_insertContainer (dest add : list corev1.Container) (path : string) :
  carriedContainers (insertContainer dest add path) = add
  /\ carriedVolumes (insertContainer dest add path) = []
  /\ carriedSecrets (insertContainer dest add path) = [].
Proof.
  rewrite insertContainer_shape. unfold createThenAppend.
  destruct dest as [| d dest]; [destruct add as [| a add] |];
    try apply carried_appendOps_containers.
  destruct (carried_appendOps_containers add path) as (H1 & H2 & H3).
  unfold carriedContainers, carriedVolumes, carriedSecrets in *. simpl.
  rewrite H1, H2, H3. auto.
Qed.

Lemma carried_insertVolume (dest add : list corev1.Volume) (path : string) :
  carriedContainers (insertVolume dest add path) = []
  /\ carriedVolumes (insertVolume dest add path) = add
  /\ carriedSecrets (insertVolume dest add path) = [].
Proof.
  rewrite insertVolume_shape. unfold createThenAppend.
  destruct dest as [| d dest]; [destruct add as [| a add] |];
    try apply carried_appendOps_volumes.
  destruct (carried_appendOps_volumes add path) as (H1 & H2 & H3).
  unfold carriedContainers, carriedVolumes, carriedSecrets in *. simpl.
  rewrite H1, H2, H3. auto.
Qed.

Lemma carried_insertImagePullSecrets (dest add : list corev1.LocalObjectReference)
    (path : string) :
  carriedContainers (insertImagePullSecrets dest add path) = []
  /\ carriedVolumes (insertImagePullSecrets dest add path) = []
  /\ carriedSecrets (insertImagePullSecrets dest add path) = add.
Proof.
  rewrite insertImagePullSecrets_shape. unfold createThenAppend.
  destruct dest as [| d dest]; [destruct add as [| a add] |];
    try apply carried_appendOps_secrets.
  destruct (carried_appendOps_secrets add path) as (H1 & H2 & H3).
  unfold carriedContainers, carriedVolumes, carriedSecrets in *. simpl.
  rewrite H1, H2, H3. auto.
Qed.

(** X2.  Read back in order, the values of the operations of an insert
    function are exactly the incoming entries: none is lost, repeated or
    reordered, whether the first travels inside a list or on its own. *)
Theorem insert_carries_incoming_entries (path : string)
    (destC addC : list corev1.Container) (destV addV : list corev1.Volume)
    (destS addS : list corev1.LocalObjectReference) :
  carriedContainers (insertContainer destC addC path) = addC
  /\ carriedVolumes (insertVolume destV addV path) = addV
  /\ carriedSecrets (insertImagePullSecrets destS addS path) = addS.
Proof.
  split; [apply carried_insertContainer |].
  split; [apply carried_insertVolume | apply carried_insertImagePullSecrets].
Qed.

(** ** The annotation loop in any visiting order *)

Lemma annotationUpdate_loop (dest : option (gmap string string))
    (add : gmap string string) :
  annotationUpdate dest add = annotationLoop dest (map_to_list add).
Proof. reflexivity. Qed.

Lemma annotationStep_acc (pairs : list (string * string))
    (dest : option (gmap string string)) (p : list operation) :
  snd (fold_left annotationUpdateStep pairs (dest, p))
  = p ++ snd (fold_left annotationUpdateStep pairs (dest, [])).
Proof.
  revert dest p. induction pairs as [| [key value] pairs IH]; intros dest p.
  - simpl. rewrite app_nil_r. reflexivity.
  - simpl.
    destruct (match dest with None => true | Some _ => false end
              || String.eqb (index dest key) "");
      match goal with
      | |- snd (fold_left _ _ (?d, p ++ [?o])) = _ =>
        rewrite (IH d (p ++ [o])), (IH d [o]), app_assoc; reflexivity
      end.
Qed.

Lemma step_condition (dest : option (gmap string string)) (key : string) :
  match dest with None => true | Some _ => false end
  || String.eqb (index dest key) ""
  = String.eqb (index dest key) "".
Proof. destruct dest; reflexivity. Qed.

Lemma annotationLoop_cons (dest : option (gmap string string))
    (kv : string * string) (pairs : list (string * string)) :
  annotationLoop dest (kv :: pairs)
  = if String.eqb (index dest (fst kv)) ""
    then addAnnotationOp kv :: annotationLoop (Some ∅) pairs
    else replaceAnnotationOp kv :: annotationLoop dest pairs.
Proof.
  destruct kv as [key value]. unfold annotationLoop. simpl.
  rewrite step_condition.
  destruct (String.eqb (index dest key) ""); rewrite annotationStep_acc; reflexivity.
Qed.

Lemma annotationLoop_rebound (pairs : list (string * string)) :
  annotationLoop (Some ∅) pairs = map addAnnotationOp pairs.
Proof.
  induction pairs as [| kv pairs IH]; [reflexivity |].
  rewrite annotationLoop_cons. simpl. rewrite lookup_empty. simpl.
  rewrite IH. reflexivity.
Qed.

(** X3.  The annotation loop emits one operation per pair to set, for every
    pod and every visiting order; [annotationUpdate] therefore emits as
    many operations as its map has keys. *)
Theorem annotation_one_op_per_key (dest : option (gmap string string))
    (pairs : list (string * string)) (add : gmap string string) :
  length (annotationLoop dest pairs) = length pairs
  /\ length (annotationUpdate dest add) = size add.
Proof.
  assert (H : forall l d, length (annotationLoop d l) = length l).
  { induction l as [| kv l IH]; intros d; [reflexivity |].
    rewrite annotationLoop_cons.
    destruct (String.eqb (index d (fst kv)) ""); simpl; rewrite IH; reflexivity. }
  split; [apply H |].
  rewrite annotationUpdate_loop, H. apply length_map_to_list.
Qed.

(** X4.  In every visiting order the operations are a run of [replace]s
    followed by a run of [add]s: keys are replaced as long as the pod holds
    a non-empty value for them, and from the first key it lacks onwards
    every key, present in the pod or not, is written by an [add] of a
    one-key map at "/metadata/annotations". *)
Theorem annotation_replaces_then_adds (dest : option (gmap string string))
    (pairs : list (string * string)) :
  exists n,
    n <= length pairs
    /\ annotationLoop dest pairs
       = map replaceAnnotationOp (take n pairs) ++ map addAnnotationOp (drop n pairs)
    /\ Forall (fun kv => index dest (fst kv) <> "") (take n pairs)
    /\ (forall kv, pairs !! n = Some kv -> index dest (fst kv) = "").
Proof.
  induction pairs as [| kv pairs (n & Hn & Hops & Hpresent & Habsent)].
  - exists 0. repeat split; auto. intros kv H. discriminate H.
  - rewrite annotationLoop_cons.
    destruct (String.eqb (index dest (fst kv)) "") eqn:He.
    + exists 0. split; [simpl; lia |].
      split; [simpl; rewrite annotationLoop_rebound; reflexivity |].
      split; [constructor |].
      intros kv' H. injection H as <-. apply String.eqb_eq, He.
    + exists (S n). split; [simpl; lia |].
      split; [simpl; rewrite Hops; reflexivity |].
      split; [| exact Habsent].
      simpl. constructor; [| exact Hpresent].
      intros H. apply String.eqb_eq in H. congruence.
Qed.

(** X5.  On a pod without an annotations map, or with an empty one, every
    pair is written by an [add] of its own one-key map at
    "/metadata/annotations", in visiting order. *)
Theorem annotation_adds_on_missing_map (pairs : list (string * string))
    (add : gmap string string) :
  annotationLoop None pairs = map addAnnotationOp pairs
  /\ annotationLoop (Some ∅) pairs = map addAnnotationOp pairs
  /\ annotationUpdate None add = map addAnnotationOp (map_to_list add).
Proof.
  assert (H : forall l, annotationLoop None l = map addAnnotationOp l).
  { intros [| kv l]; [reflexivity |].
    rewrite annotationLoop_cons. simpl. rewrite annotationLoop_rebound. reflexivity. }
  split; [apply H |]. split; [apply annotationLoop_rebound |].
  rewrite annotationUpdate_loop. apply H.
Qed.

Lemma carried_annotationLoop (dest : option (gmap string string))
    (pairs : list (string * string)) :
  carriedContainers (annotationLoop dest pairs) = []
  /\ carriedVolumes (annotationLoop dest pairs) = []
  /\ carriedSecrets (annotationLoop dest pairs) = [].
Proof.
  revert dest. induction pairs as [| kv pairs IH]; intros dest; [auto |].
  rewrite annotationLoop_cons.
  destruct (String.eqb (index dest (fst kv)) "");
    [destruct (IH (Some ∅)) as (H1 & H2 & H3) | destruct (IH dest) as (H1 & H2 & H3)];
    unfold carriedContainers, carriedVolumes, carriedSecrets in *; simpl; auto.
Qed.

(** ** The patch as a whole *)

Lemma patchOperations_summary (pod : corev1.Pod) (sidecarConfig : Config)
    (annotations : gmap string string) :
  let ops := patchOperations pod sidecarConfig annotations in
  length ops
  = length (Containers sidecarConfig) + length (Volumes sidecarConfig)
    + length (ImagePullSecret sidecarConfig) + size annotations
  /\ carriedContainers ops = Containers sidecarConfig
  /\ carriedVolumes ops = Volumes sidecarConfig
  /\ carriedSecrets ops = ImagePullSecret sidecarConfig.
Proof.
  intros ops. unfold ops, patchOperations.
  set (dc := corev1.Containers (corev1.Spec pod)).
  set (dv := corev1.Volumes (corev1.Spec pod)).
  set (ds := corev1.ImagePullSecrets (corev1.Spec pod)).
  set (da := metav1.Annotations (corev1.ObjectMeta pod)).
  destruct (carried_insertContainer dc (Containers sidecarConfig) "/spec/containers")
    as (C1 & C2 & C3).
  destruct (carried_insertVolume dv (Volumes sidecarConfig) "/spec/volumes")
    as (V1 & V2 & V3).
  destruct (carried_insertImagePullSecrets ds (ImagePullSecret sidecarConfig)
              "/spec/imagePullSecrets") as (S1 & S2 & S3).
  destruct (carried_annotationLoop da (map_to_list annotations)) as (A1 & A2 & A3).
  rewrite <- annotationUpdate_loop in A1, A2, A3.
  split.
  - rewrite !length_app.
    rewrite insertContainer_shape, insertVolume_shape, insertImagePullSecrets_shape.
    rewrite !length_createThenAppend.
    rewrite annotationUpdate_loop.
    assert (H : forall l d, length (annotationLoop d l) = length l).
    { induction l as [| kv l IH]; intros d; [reflexivity |].
      rewrite annotationLoop_cons.
      destruct (String.eqb (index d (fst kv)) ""); simpl; rewrite IH; reflexivity. }
    rewrite H, length_map_to_list. lia.
  - rewrite !carriedContainers_app, !carriedVolumes_app, !carriedSecrets_app.
    rewrite C1, C2, C3, V1, V2, V3, S1, S2, S3, A1, A2, A3.
    rewrite !app_nil_r. auto.
Qed.

(** X6.  The patch has one operation per sidecar container, volume and
    pull secret and one per annotation to set, and read back in order its
    values are exactly the containers, the volumes and the pull secrets of
    the configuration it was built from, whatever the pod holds. *)
Theorem patch_carries_the_sidecar (pod : corev1.Pod) (sidecarConfig : Config)
    (annotations : gmap string string) :
  let ops := patchOperations pod sidecarConfig annotations in
  length ops
  = length (Containers sidecarConfig) + length (Volumes sidecarConfig)
    + length (ImagePullSecret sidecarConfig) + size annotations
  /\ carriedContainers ops = Containers sidecarConfig
  /\ carriedVolumes ops = Volumes sidecarConfig
  /\ carriedSecrets ops = ImagePullSecret sidecarConfig.
Proof. apply patchOperations_summary. Qed.

(** ** The engine *)

Lemma k8s_defaults_idempotent :
  (forall c, k8s.SetDefaults_Container (k8s.SetDefaults_Container c)
             = k8s.SetDefaults_Container c)
  /\ (forall v, k8s.SetDefaults_Volume (k8s.SetDefaults_Volume v)
                = k8s.SetDefaults_Volume v)
  /\ (forall r, k8s.SetDefaults_LocalObjectReference
                  (k8s.SetDefaults_LocalObjectReference r)
                = k8s.SetDefaults_LocalObjectReference r).
Proof.
  split; [| split; [| reflexivity]].
  - intros [name image path policy]. unfold k8s.SetDefaults_Container. simpl.
    f_equal; unfold k8s.orDefault.
    + destruct (String.eqb path "") eqn:E; [reflexivity | rewrite E; reflexivity].
    + destruct (String.eqb policy "") eqn:E; [reflexivity | rewrite E; reflexivity].
  - intros [name [| | path | secret]]; reflexivity.
Qed.

Section EngineFacts.

Variable Unmarshal : string -> result corev1.Pod.
Variable Marshal : list operation -> result string.
Variable Decode : string -> v1beta1.AdmissionReview * option string.
Variable SetDefaults_Container : corev1.Container -> corev1.Container.
Variable SetDefaults_Volume : corev1.Volume -> corev1.Volume.
Variable SetDefaults_LocalObjectReference :
  corev1.LocalObjectReference -> corev1.LocalObjectReference.

Local Abbreviation engine :=
  (mutation Unmarshal Marshal SetDefaults_Container SetDefaults_Volume
     SetDefaults_LocalObjectReference).
Local Abbreviation serve :=
  (webhookMutation Unmarshal Marshal Decode SetDefaults_Container
     SetDefaults_Volume SetDefaults_LocalObjectReference).
Local Abbreviation withDefaults :=
  (defaulted SetDefaults_Container SetDefaults_Volume
     SetDefaults_LocalObjectReference).

Lemma mutation_required (w : WebHookServer) (ar : v1beta1.AdmissionReview)
    (req : v1beta1.AdmissionRequest) (pod : corev1.Pod) :
  v1beta1.Request ar = Some req ->
  Unmarshal (v1beta1.Raw req) = Ok pod ->
  requiredMutation (corev1.ObjectMeta pod) = true ->
  engine w ar
  = Returns ({| SidecarConfig := withDefaults (SidecarConfig w);
                TLSConfig := TLSConfig w |},
             match Marshal (patchOperations pod (withDefaults (SidecarConfig w))
                              {[ webhookStatusKey := "injected" ]}) with
             | Ok patch => patchResponse patch
             | Err msg => errorResponse msg
             end).
Proof.
  intros Hreq Hpod Hneed. unfold mutation. rewrite Hreq, Hpod, Hneed. simpl.
  unfold createpatch, defaulted.
  destruct (Marshal _); reflexivity.
Qed.


Lemma withDefaults_idempotent (cfg : Config) :
  (forall c, SetDefaults_Container (SetDefaults_Container c) = SetDefaults_Container c) ->
  (forall v, SetDefaults_Volume (SetDefaults_Volume v) = SetDefaults_Volume v) ->
  (forall r, SetDefaults_LocalObjectReference (SetDefaults_LocalObjectReference r)
             = SetDefaults_LocalObjectReference r) ->
  withDefaults (withDefaults cfg) = withDefaults cfg.
Proof.
  intros HC HV HS. unfold defaulted. simpl.
  rewrite !map_map.
  f_equal; apply map_ext; assumption.
Qed.

(** X8.  When defaulting an entry twice is the same as defaulting it once,
    handling a request settles the server: the same request handled again
    on the server it left gives the same answer and leaves that server as
    it is. *)
Theorem mutation_settles (w w' : WebHookServer) (ar : v1beta1.AdmissionReview)
    (resp : v1beta1.AdmissionResponse) :
  (forall c, SetDefaults_Container (SetDefaults_Container c) = SetDefaults_Container c) ->
  (forall v, SetDefaults_Volume (SetDefaults_Volume v) = SetDefaults_Volume v) ->
  (forall r, SetDefaults_LocalObjectReference (SetDefaults_LocalObjectReference r)
             = SetDefaults_LocalObjectReference r) ->
  engine w ar = Returns (w', resp) ->
  engine w' ar = Returns (w', resp).
Proof.
  intros HC HV HS Hrun.
  destruct (v1beta1.Request ar) as [req |] eqn:Hreq;
    [| unfold mutation in Hrun; rewrite Hreq in Hrun; discriminate Hrun].
  destruct (Unmarshal (v1beta1.Raw req)) as [pod | msg] eqn:Hpod.
  - destruct (requiredMutation (corev1.ObjectMeta pod)) eqn:Hneed.
    + rewrite (mutation_required w ar req pod Hreq Hpod Hneed) in Hrun.
      injection Hrun as <- <-.
      rewrite (mutation_required _ ar req pod Hreq Hpod Hneed). simpl.
      rewrite (withDefaults_idempotent _ HC HV HS). reflexivity.
    + unfold mutation in *. rewrite Hreq, Hpod, Hneed in *. simpl in *.
      injection Hrun as <- <-. reflexivity.
  - unfold mutation in *. rewrite Hreq, Hpod in *.
    injection Hrun as <- <-. reflexivity.
Qed.

(** X9.  Whatever the engine answers, it leaves the UID of the response
    empty, sets the patch type exactly when it sets a patch, allows exactly
    when it reports no result message, and never sends a patch with a
    denial. *)
Theorem mutation_response_invariants (w w' : WebHookServer)
    (ar : v1beta1.AdmissionReview) (resp : v1beta1.AdmissionResponse) :
  engine w ar = Returns (w', resp) ->
  v1beta1.RespUID resp = ""
  /\ (v1beta1.Patch resp <> None <->
      v1beta1.RespPatchType resp = Some v1beta1.PatchTypeJSONPatch)
  /\ (v1beta1.Allowed resp = true <-> v1beta1.Result resp = None)
  /\ (v1beta1.Patch resp <> None -> v1beta1.Allowed resp = true).
Proof.
  intros Hrun. unfold mutation in Hrun.
  destruct (v1beta1.Request ar) as [req |]; [| discriminate Hrun].
  assert (Hshape : resp = allowResponse
                   \/ (exists msg, resp = errorResponse msg)
                   \/ exists patch, resp = patchResponse patch).
  { destruct (Unmarshal _) as [pod | msg].
    - destruct (negb _).
      + injection Hrun as _ <-. auto.
      + simpl in Hrun. destruct (createpatch _ _ _ _);
          injection Hrun as _ <-; eauto.
    - injection Hrun as _ <-. eauto. }
  destruct Hshape as [-> | [[msg ->] | [patch ->]]]; simpl;
    repeat split; try congruence; try discriminate; auto.
Qed.

End EngineFacts.


Lemma mutation_settles_witness :
  exists w' resp,
    mutation Sample.Unmarshal Sample.Marshal k8s.SetDefaults_Container
      k8s.SetDefaults_Volume k8s.SetDefaults_LocalObjectReference
      Sample.webhook (Sample.reviewOf "uid-1" "wanted") = Returns (w', resp)
    /\ mutation Sample.Unmarshal Sample.Marshal k8s.SetDefaults_Container
         k8s.SetDefaults_Volume k8s.SetDefaults_LocalObjectReference
         w' (Sample.reviewOf "uid-1" "wanted") = Returns (w', resp).
Proof.
  eexists _, _.
  assert (H : mutation Sample.Unmarshal Sample.Marshal k8s.SetDefaults_Container
                k8s.SetDefaults_Volume k8s.SetDefaults_LocalObjectReference
                Sample.webhook (Sample.reviewOf "uid-1" "wanted")
              = Returns _) by (vm_compute; reflexivity).
  split; [exact H |].
  exact (mutation_settles Sample.Unmarshal Sample.Marshal
           k8s.SetDefaults_Container k8s.SetDefaults_Volume
           k8s.SetDefaults_LocalObjectReference _ _ _ _
           (proj1 k8s_defaults_idempotent)
           (proj1 (proj2 k8s_defaults_idempotent))
           (proj2 (proj2 k8s_defaults_idempotent)) H).
Defined.

Lemma mutation_response_invariants_witness :
  exists w' resp,
    mutation Sample.Unmarshal Sample.Marshal k8s.SetDefaults_Container
      k8s.SetDefaults_Volume k8s.SetDefaults_LocalObjectReference
      Sample.webhook (Sample.reviewOf "uid-3" "garbage") = Returns (w', resp)
    /\ v1beta1.RespUID resp = ""
    /\ (v1beta1.Allowed resp = true <-> v1beta1.Result resp = None).
Proof.
  eexists _, _.
  assert (H : mutation Sample.Unmarshal Sample.Marshal k8s.SetDefaults_Container
                k8s.SetDefaults_Volume k8s.SetDefaults_LocalObjectReference
                Sample.webhook (Sample.reviewOf "uid-3" "garbage")
              = Returns _) by (vm_compute; reflexivity).
  split; [exact H |].
  destruct (mutation_response_invariants Sample.Unmarshal Sample.Marshal
              k8s.SetDefaults_Container k8s.SetDefaults_Volume
              k8s.SetDefaults_LocalObjectReference _ _ _ _ H) as (Hu & _ & Ha & _).
  split; [exact Hu | exact Ha].
Defined.

(** ** The serve method *)

Section ServeFacts.

Variable Unmarshal : string -> result corev1.Pod.
Variable Marshal : list operation -> result string.
Variable Decode : string -> v1beta1.AdmissionReview * option string.
Variable SetDefaults_Container : corev1.Container -> corev1.Container.
Variable SetDefaults_Volume : corev1.Volume -> corev1.Volume.
Variable SetDefaults_LocalObjectReference :
  corev1.LocalObjectReference -> corev1.LocalObjectReference.

Local Abbreviation engine :=
  (mutation Unmarshal Marshal SetDefaults_Container SetDefaults_Volume
     SetDefaults_LocalObjectReference).
Local Abbreviation serve :=
  (webhookMutation Unmarshal Marshal Decode SetDefaults_Container
     SetDefaults_Volume SetDefaults_LocalObjectReference).

(** The review the handler writes for a response and the decoded review. *)
Local Abbreviation envelope aRequest resp :=
  {| v1beta1.Request := None;
     v1beta1.Response :=
       Some (match v1beta1.Request aRequest with
             | Some req => withUID resp (v1beta1.UID req)
             | None => resp
             end) |}.

Lemma serve_rejects (w : WebHookServer) (r : HttpRequest) :
  bodyOf r = "" \/ ContentType r <> "application/json" ->
  serve w r = Returns (w, None).
Proof.
  intros H. unfold webhookMutation. fold (bodyOf r).
  destruct (bodyOf r) as [| c body]; [reflexivity |]. simpl.
  destruct H as [H | H]; [discriminate H |].
  destruct (String.eqb (ContentType r) "application/json") eqn:E; [| reflexivity].
  apply String.eqb_eq in E. contradiction.
Qed.

Lemma serve_accepts (w : WebHookServer) (r : HttpRequest) :
  bodyOf r <> "" ->
  ContentType r = "application/json" ->
  serve w r
  = match snd (Decode (bodyOf r)) with
    | Some msg =>
      Returns (w, Some (envelope (fst (Decode (bodyOf r))) (errorResponse msg)))
    | None =>
      match engine w (fst (Decode (bodyOf r))) with
      | Panics => Panics
      | Returns (w', resp) =>
        Returns (w', Some (envelope (fst (Decode (bodyOf r))) resp))
      end
    end.
Proof.
  intros Hne Hct. unfold webhookMutation. fold (bodyOf r). rewrite Hct.
  destruct (bodyOf r) as [| c body]; [congruence |]. simpl.
  destruct (Decode (String c body)) as [aRequest [msg |]]; simpl.
  - destruct (v1beta1.Request aRequest); reflexivity.
  - destruct (engine w aRequest) as [[w' resp] |]; [| reflexivity].
    destruct (v1beta1.Request aRequest); reflexivity.
Qed.


Lemma body_or_type (r : HttpRequest) :
  (bodyOf r = "" \/ ContentType r <> "application/json")
  \/ (bodyOf r <> "" /\ ContentType r = "application/json").
Proof.
  destruct (bodyOf r) as [| c body]; [auto |].
  destruct (String.eqb (ContentType r) "application/json") eqn:E.
  - apply String.eqb_eq in E. right. split; [discriminate | exact E].
  - left. right. intros H. apply String.eqb_eq in H. congruence.
Qed.


(** X11.  The handler panics in one situation only: the body is not empty,
    the content type is "application/json", decoding reports no error and
    the decoded review has no request. *)
Theorem serve_panics_iff (w : WebHookServer) (r : HttpRequest) :
  serve w r = Panics
  <-> bodyOf r <> ""
      /\ ContentType r = "application/json"
      /\ snd (Decode (bodyOf r)) = None
      /\ v1beta1.Request (fst (Decode (bodyOf r))) = None.
Proof.
  split.
  - intros Hp.
    destruct (body_or_type r) as [Hrej | [Hne Hct]].
    { rewrite (serve_rejects w r Hrej) in Hp. discriminate Hp. }
    split; [exact Hne |]. split; [exact Hct |].
    rewrite (serve_accepts w r Hne Hct) in Hp.
    destruct (snd (Decode (bodyOf r))); [discriminate Hp |].
    split; [reflexivity |].
    destruct (v1beta1.Request (fst (Decode (bodyOf r)))) as [req |] eqn:Hreq;
      [| reflexivity].
    destruct (mutation_returns Unmarshal Marshal SetDefaults_Container
                SetDefaults_Volume SetDefaults_LocalObjectReference
                w _ req Hreq) as (w' & resp & Hrun).
    rewrite Hrun in Hp. discriminate Hp.
  - intros (Hne & Hct & Herr & Hreq).
    rewrite (serve_accepts w r Hne Hct), Herr.
    rewrite (mutation_nil_request Unmarshal Marshal SetDefaults_Container
               SetDefaults_Volume SetDefaults_LocalObjectReference w _ Hreq).
    reflexivity.
Qed.

(** X12.  When decoding reports an error the engine is not run: the server
    is left as it is and the review written carries the error message, is
    not allowed, has no patch, and has the UID of whatever request decoding
    left behind, or none.  This holds also when no request was left. *)
Theorem serve_reports_decode_error (w : WebHookServer) (r : HttpRequest)
    (msg : string) :
  bodyOf r <> "" ->
  ContentType r = "application/json" ->
  snd (Decode (bodyOf r)) = Some msg ->
  exists resp,
    serve w r
    = Returns (w, Some {| v1beta1.Request := None; v1beta1.Response := Some resp |})
    /\ v1beta1.Result resp = Some {| metav1.Message := msg |}
    /\ v1beta1.Allowed resp = false
    /\ v1beta1.Patch resp = None
    /\ v1beta1.RespUID resp
       = match v1beta1.Request (fst (Decode (bodyOf r))) with
         | Some req => v1beta1.UID req
         | None => ""
         end.
Proof.
  intros Hne Hct Herr. rewrite (serve_accepts w r Hne Hct), Herr.
  eexists. split; [reflexivity |].
  destruct (v1beta1.Request (fst (Decode (bodyOf r)))); repeat split; reflexivity.
Qed.

(** X13.  A review the handler writes never echoes the request and always
    holds a response; the response has the UID of the decoded request, or
    the empty UID when there is none, and the TLS configuration of the
    server is untouched. *)
Theorem serve_envelope_shape (w w' : WebHookServer) (r : HttpRequest)
    (review : v1beta1.AdmissionReview) :
  serve w r = Returns (w', Some review) ->
  v1beta1.Request review = None
  /\ TLSConfig w' = TLSConfig w
  /\ exists resp,
       v1beta1.Response review = Some resp
       /\ v1beta1.RespUID resp
          = match v1beta1.Request (fst (Decode (bodyOf r))) with
            | Some req => v1beta1.UID req
            | None => ""
            end.
Proof.
  intros Hs.
  destruct (body_or_type r) as [Hrej | [Hne Hct]].
  { rewrite (serve_rejects w r Hrej) in Hs. discriminate Hs. }
  rewrite (serve_accepts w r Hne Hct) in Hs.
  destruct (snd (Decode (bodyOf r))) as [msg |].
  - injection Hs as <- <-. split; [reflexivity |]. split; [reflexivity |].
    eexists. split; [reflexivity |].
    destruct (v1beta1.Request (fst (Decode (bodyOf r)))); reflexivity.
  - destruct (engine w (fst (Decode (bodyOf r)))) as [[w1 resp] |] eqn:Hrun;
      [| discriminate Hs].
    injection Hs as <- <-. split; [reflexivity |].
    destruct (v1beta1.Request (fst (Decode (bodyOf r)))) as [req |] eqn:Hreq.
    + split.
      * unfold mutation in Hrun. rewrite Hreq in Hrun.
        destruct (Unmarshal _) as [pod | m]; [| injection Hrun as <- _; reflexivity].
        destruct (negb _); [injection Hrun as <- _; reflexivity |].
        simpl in Hrun.
        destruct (createpatch _ _ _ _); injection Hrun as <- _; reflexivity.
      * eexists. split; reflexivity.
    + unfold mutation in Hrun. rewrite Hreq in Hrun. discriminate Hrun.
Qed.

End ServeFacts.

Lemma serve_reports_decode_error_witness :
  bodyOf (Sample.post "not json") <> ""
  /\ ContentType (Sample.post "not json") = "application/json"
  /\ snd (Sample.Decode (bodyOf (Sample.post "not json")))
     = Some "couldn't get version/kind; json parse error"
  /\ exists resp,
       webhookMutation Sample.Unmarshal Sample.Marshal Sample.Decode
         k8s.SetDefaults_Container k8s.SetDefaults_Volume
         k8s.SetDefaults_LocalObjectReference
         Sample.webhook (Sample.post "not json")
       = Returns (Sample.webhook,
                  Some {| v1beta1.Request := None; v1beta1.Response := Some resp |})
       /\ v1beta1.Allowed resp = false.
Proof.
  assert (H1 : bodyOf (Sample.post "not json") <> "") by discriminate.
  assert (H2 : ContentType (Sample.post "not json") = "application/json")
    by reflexivity.
  assert (H3 : snd (Sample.Decode (bodyOf (Sample.post "not json")))
               = Some "couldn't get version/kind; json parse error")
    by (vm_compute; reflexivity).
  split; [exact H1 |]. split; [exact H2 |]. split; [exact H3 |].
  destruct (serve_reports_decode_error Sample.Unmarshal Sample.Marshal Sample.Decode
              k8s.SetDefaults_Container k8s.SetDefaults_Volume
              k8s.SetDefaults_LocalObjectReference
              Sample.webhook _ _ H1 H2 H3) as (resp & Hs & _ & Ha & _).
  exists resp. split; [exact Hs | exact Ha].
Defined.

Lemma serve_envelope_shape_witness :
  exists w' review,
    webhookMutation Sample.Unmarshal Sample.Marshal Sample.Decode
      k8s.SetDefaults_Container k8s.SetDefaults_Volume
      k8s.SetDefaults_LocalObjectReference
      Sample.webhook (Sample.post "review-wanted")
    = Returns (w', Some review)
    /\ v1beta1.Request review = None
    /\ TLSConfig w' = [Sample.oldPair].
Proof.
  eexists _, _.
  assert (H : webhookMutation Sample.Unmarshal Sample.Marshal Sample.Decode
                k8s.SetDefaults_Container k8s.SetDefaults_Volume
                k8s.SetDefaults_LocalObjectReference
                Sample.webhook (Sample.post "review-wanted")
              = Returns (_, Some _)) by (vm_compute; reflexivity).
  split; [exact H |].
  destruct (serve_envelope_shape Sample.Unmarshal Sample.Marshal Sample.Decode
              k8s.SetDefaults_Container k8s.SetDefaults_Volume
              k8s.SetDefaults_LocalObjectReference _ _ _ _ H) as (Hr & Ht & _).
  split; [exact Hr | exact Ht].
Defined.

(** ** The loop *)

Section LoopFacts.

Variable yamlUnmarshal : string -> result Config.
Variable X509KeyPair : string -> string -> result Certificate.

Local Abbreviation step := (RunStep yamlUnmarshal X509KeyPair).
Local Abbreviation run := (Run yamlUnmarshal X509KeyPair).
Local Abbreviation load := (reload yamlUnmarshal X509KeyPair).

Lemma Run_app (p : WebHookParameters) (st : loop)
    (l1 l2 : list (gmap string string * event)) :
  run p st (l1 ++ l2) = run p (run p st l1) l2.
Proof.
  revert st. induction l1 as [| [fs e] l1 IH]; intros st; [reflexivity |].
  simpl. apply IH.
Qed.

Lemma stopped_step (p : WebHookParameters) (fs : gmap string string)
    (st : loop) (e : event) :
  running st = false -> step p fs st e = (st, fs).
Proof. intros H. unfold RunStep. rewrite H. reflexivity. Qed.

Lemma stopped_run (p : WebHookParameters) (st : loop)
    (turns : list (gmap string string * event)) :
  running st = false -> run p st turns = st.
Proof.
  intros H. induction turns as [| [fs e] turns IH]; [reflexivity |].
  simpl. rewrite (stopped_step p fs st e H). exact IH.
Qed.

(** X14.  The stop signal ends the loop: whatever arrives after it, on
    whatever files, the server and the timer stay as the signal found
    them. *)
Theorem stop_signal_is_final (p : WebHookParameters) (st : loop)
    (fs : gmap string string) (turns : list (gmap string string * event)) :
  server (run p st ((fs, StopSignal) :: turns)) = server st
  /\ timerArmed (run p st ((fs, StopSignal) :: turns)) = timerArmed st
  /\ running (run p st ((fs, StopSignal) :: turns)) = false.
Proof.
  simpl. unfold RunStep.
  destruct (running st) eqn:Hr; simpl.
  - rewrite stopped_run by reflexivity. repeat split; reflexivity.
  - rewrite stopped_run by exact Hr. repeat split; auto.
Qed.

Lemma burst_arms (p : WebHookParameters) (st : loop)
    (burst : list (gmap string string * event)) :
  running st = true ->
  burst <> [] ->
  Forall arms burst ->
  run p st burst = {| server := server st; timerArmed := true; running := true |}.
Proof.
  intros Hr Hne Harms.
  assert (H : forall l s, running s = true -> Forall arms l ->
              run p s l = s
              \/ run p s l = {| server := server s; timerArmed := true;
                                running := true |}).
  { induction l as [| [fs e] l IH]; intros s Hs Hl; [left; reflexivity |].
    inversion Hl as [| x l' Hx Hl']; subst. simpl.
    destruct e as [| isModify isCreate | | |]; simpl in Hx; try contradiction.
    unfold RunStep. rewrite Hs. simpl. unfold arms in Hx. simpl in Hx.
    rewrite Hx. simpl.
    destruct (IH {| server := server s; timerArmed := true; running := true |}
                eq_refl Hl') as [-> | ->]; right; reflexivity. }
  destruct burst as [| [fs e] burst]; [congruence |].
  inversion Harms as [| x l' Hx Hl']; subst. simpl.
  destruct e as [| isModify isCreate | | |]; simpl in Hx; try contradiction.
  unfold RunStep. rewrite Hr. simpl. unfold arms in Hx. simpl in Hx.
  rewrite Hx. simpl.
  destruct (H burst {| server := server st; timerArmed := true; running := true |}
              eq_refl Hl') as [-> | ->]; reflexivity.
Qed.

(** X15.  A burst of modify or create events, however long, followed by the
    timer firing makes exactly one reload, on the files as they are when
    the timer fires; the timer is spent afterwards. *)
Theorem burst_reloads_once (p : WebHookParameters) (st : loop)
    (burst : list (gmap string string * event)) (fs : gmap string string) :
  running st = true ->
  burst <> [] ->
  Forall arms burst ->
  run p st (burst ++ [(fs, TimerFired)])
  = {| server := load p fs (server st); timerArmed := false; running := true |}.
Proof.
  intros Hr Hne Harms.
  rewrite Run_app, (burst_arms p st burst Hr Hne Harms). reflexivity.
Qed.

(** X16.  The timer fires once per arming: a second firing with no watch
    event in between reloads nothing, even if the files changed. *)
Theorem timer_fires_once (p : WebHookParameters) (st : loop)
    (fs1 fs2 : gmap string string) :
  run p st [(fs1, TimerFired); (fs2, TimerFired)] = run p st [(fs1, TimerFired)].
Proof.
  simpl. unfold RunStep.
  destruct (running st) eqn:Hr; simpl; [| rewrite Hr; reflexivity].
  destruct (timerArmed st) eqn:Ha; simpl.
  - reflexivity.
  - rewrite Hr. simpl. rewrite Ha. reflexivity.
Qed.

(** X17.  A health tick never touches the loop's variables and never any
    file but the health file; it writes "ok" there when the loop runs, the
    interval and the path are both set and the write goes through, and
    writes nothing when the interval is zero or the path is empty. *)
Theorem health_tick_effect (p : WebHookParameters) (fs : gmap string string)
    (st : loop) (writable : bool) :
  fst (step p fs st (HealthTick writable)) = st
  /\ (forall path, path <> HealthCheckFile p ->
      snd (step p fs st (HealthTick writable)) !! path = fs !! path)
  /\ (running st = true -> HealthCheckInterval p <> 0 ->
      HealthCheckFile p <> "" -> writable = true ->
      snd (step p fs st (HealthTick writable)) !! HealthCheckFile p = Some "ok")
  /\ (HealthCheckInterval p = 0 \/ HealthCheckFile p = "" ->
      snd (step p fs st (HealthTick writable)) = fs).
Proof.
  unfold RunStep, healthEnabled.
  split; [| split; [| split]].
  - destruct (running st); simpl; [| reflexivity].
    destruct (_ && writable); reflexivity.
  - intros path Hne. destruct (running st); simpl; [| reflexivity].
    destruct (_ && writable); simpl; [| reflexivity].
    apply lookup_insert_ne. congruence.
  - intros Hr Hi Hf ->. rewrite Hr. simpl.
    apply Nat.eqb_neq in Hi. rewrite Hi. simpl.
    destruct (String.eqb (HealthCheckFile p) "") eqn:E.
    + apply String.eqb_eq in E. contradiction.
    + simpl. apply lookup_insert_eq.
  - intros H. destruct (running st); simpl; [| reflexivity].
    destruct H as [H | H]; rewrite H; simpl; [reflexivity |].
    rewrite andb_false_r. reflexivity.
Qed.

(** X18.  On given files a reload either changes no server at all or puts
    every server into one and the same state, so nothing of the previous
    configuration or certificate survives a successful reload; and
    reloading the same files twice is the same as reloading them once. *)
Theorem reload_is_wholesale (p : WebHookParameters) (fs : gmap string string) :
  ((forall w, load p fs w = w) \/ (exists s, forall w, load p fs w = s))
  /\ (forall w, load p fs (load p fs w) = load p fs w).
Proof.
  unfold reload.
  destruct (loadConfig yamlUnmarshal fs (SidecarConfigFile p)) as [cfg | e];
    [| split; [left |]; reflexivity].
  destruct (LoadX509KeyPair X509KeyPair fs (CertFile p) (KeyFile p)) as [crt | e];
    [| split; [left |]; reflexivity].
  split; [right; eexists |]; reflexivity.
Qed.

(** X19.  Only a modify or create event arms the timer and only the stop
    signal stops the loop: deletes, renames, watcher errors, health ticks
    and timer firings do neither. *)
Theorem arming_and_stopping (p : WebHookParameters) (fs : gmap string string)
    (st : loop) (e : event) :
  (timerArmed (fst (step p fs st e)) = true ->
   timerArmed st = true
   \/ exists isModify isCreate,
        e = WatchEvent isModify isCreate /\ isModify || isCreate = true)
  /\ (running (fst (step p fs st e)) = false ->
      running st = false \/ e = StopSignal).
Proof.
  unfold RunStep.
  destruct (running st) eqn:Hr; simpl; [| auto].
  destruct e as [| isModify isCreate | err | writable |]; simpl.
  - destruct (timerArmed st) eqn:Ha; simpl; split; intros H; auto; congruence.
  - destruct (isModify || isCreate) eqn:E; simpl; split; intros H;
      try (left; assumption); try congruence.
    right. exists isModify, isCreate. auto.
  - split; intros H; auto; congruence.
  - destruct (healthEnabled p && writable); simpl; split; intros H; auto; congruence.
  - split; auto.
Qed.

End LoopFacts.

Lemma burst_reloads_once_witness :
  running Sample.idle = true
  /\ repeat (Sample.brokenConfigFiles, WatchEvent true false) 3 <> []
  /\ Forall arms (repeat (Sample.brokenConfigFiles, WatchEvent true false) 3)
  /\ Run Sample.yamlUnmarshal Sample.X509KeyPair Sample.params Sample.idle
       (repeat (Sample.brokenConfigFiles, WatchEvent true false) 3
        ++ [(Sample.goodFiles, TimerFired)])
     = {| server := {| SidecarConfig := Sample.otherSidecar;
                       TLSConfig := [Sample.newPair] |};
          timerArmed := false; running := true |}.
Proof.
  assert (H1 : running Sample.idle = true) by reflexivity.
  assert (H2 : repeat (Sample.brokenConfigFiles, WatchEvent true false) 3 <> [])
    by discriminate.
  assert (H3 : Forall arms (repeat (Sample.brokenConfigFiles, WatchEvent true false) 3))
    by (repeat constructor).
  split; [exact H1 |]. split; [exact H2 |]. split; [exact H3 |].
  rewrite (burst_reloads_once Sample.yamlUnmarshal Sample.X509KeyPair Sample.params
             Sample.idle _ Sample.goodFiles H1 H2 H3).
  vm_compute. reflexivity.
Defined.

(** ** Start-up *)

Lemma Split_join (path : string) :
  fst (Split path) +:+ snd (Split path) = path.
Proof.
  induction path as [| c rest IH]; [reflexivity |].
  simpl. destruct (Split rest) as [dir file]. simpl in IH.
  destruct dir as [| d dir].
  - simpl in IH. subst rest. destruct (Ascii.eqb c "/"); reflexivity.
  - simpl. rewrite <- IH. reflexivity.
Qed.

Lemma Split_file_noSlash (path : string) : noSlash (snd (Split path)) = true.
Proof.
  induction path as [| c rest IH]; [reflexivity |].
  simpl. destruct (Split rest) as [dir file]. simpl in IH.
  destruct dir as [| d dir]; [| exact IH].
  destruct (Ascii.eqb c "/") eqn:E; simpl; [exact IH |].
  rewrite E. exact IH.
Qed.

Section StartupFacts.

Variable yamlUnmarshal : string -> result Config.
Variable X509KeyPair : string -> string -> result Certificate.
Variable NewWatcher : option string.
Variable Watch : string -> option string.

Local Abbreviation start := (NewWebhook yamlUnmarshal X509KeyPair NewWatcher Watch).
Local Abbreviation load := (reload yamlUnmarshal X509KeyPair).

Lemma watchFiles_ok (files watched result : list string) :
  watchFiles Watch files watched = Ok result
  <-> Forall (fun file => Watch (fst (Split file)) = None) files
      /\ result = watched ++ map (fun file => fst (Split file)) files.
Proof.
  revert watched. induction files as [| file files IH]; intros watched; simpl.
  - rewrite app_nil_r. split.
    + intros H. injection H as <-. auto.
    + intros [_ ->]. reflexivity.
  - destruct (Split file) as [dir name] eqn:Hs. simpl.
    destruct (Watch dir) as [err |] eqn:Hw.
    + split; [discriminate |].
      intros [H _]. inversion H as [| x l Hx Hl]; subst.
      rewrite Hs in Hx. simpl in Hx. congruence.
    + rewrite IH, <- app_assoc. simpl. split.
      * intros [H ->]. split; [| reflexivity].
        constructor; [rewrite Hs; exact Hw | exact H].
      * intros [H ->]. inversion H; subst. auto.
Qed.

(** X20.  A server that started from given files is in the state a reload
    of the same files would put any server in: it holds the configuration
    and the one certificate that were loaded, and reloading those files
    changes nothing. *)
Theorem start_agrees_with_reload (fs : gmap string string)
    (p : WebHookParameters) (s : started) :
  start fs p = Ok s ->
  loadConfig yamlUnmarshal fs (SidecarConfigFile p) = Ok (SidecarConfig (hook s))
  /\ (exists crt,
        LoadX509KeyPair X509KeyPair fs (CertFile p) (KeyFile p) = Ok crt
        /\ TLSConfig (hook s) = [crt])
  /\ (forall w, load p fs w = hook s)
  /\ load p fs (hook s) = hook s.
Proof.
  unfold NewWebhook, reload. intros H.
  destruct (loadConfig _ _ _) as [cfg | e]; [| discriminate H].
  destruct (LoadX509KeyPair _ _ _ _) as [crt | e]; [| discriminate H].
  destruct NewWatcher; [discriminate H |].
  destruct (watchFiles _ _ _); [| discriminate H].
  injection H as <-. simpl. eauto 6.
Qed.

(** X21.  Start-up succeeds exactly when the configuration loads, the key
    pair loads, the watcher can be created and the directory of each of the
    three files can be watched. *)
Theorem start_succeeds_iff (fs : gmap string string) (p : WebHookParameters) :
  (exists s, start fs p = Ok s)
  <-> (exists cfg, loadConfig yamlUnmarshal fs (SidecarConfigFile p) = Ok cfg)
      /\ (exists crt, LoadX509KeyPair X509KeyPair fs (CertFile p) (KeyFile p) = Ok crt)
      /\ NewWatcher = None
      /\ Forall (fun file => Watch (fst (Split file)) = None)
           [SidecarConfigFile p; CertFile p; KeyFile p].
Proof.
  unfold NewWebhook.
  destruct (loadConfig _ _ _) as [cfg | e].
  2: { split; [intros [s H]; discriminate H | intros ([c H] & _); discriminate H]. }
  destruct (LoadX509KeyPair _ _ _ _) as [crt | e].
  2: { split; [intros [s H]; discriminate H | intros (_ & [c H] & _); discriminate H]. }
  destruct NewWatcher as [e |].
  { split; [intros [s H]; discriminate H | intros (_ & _ & H & _); discriminate H]. }
  destruct (watchFiles Watch [SidecarConfigFile p; CertFile p; KeyFile p] [])
    as [watched | e] eqn:Hw.
  - apply watchFiles_ok in Hw as [Hall _]. split; eauto 6.
  - split; [intros [s H]; discriminate H |].
    intros (_ & _ & _ & Hall).
    assert (Hok : watchFiles Watch [SidecarConfigFile p; CertFile p; KeyFile p] []
                  = Ok ([] ++ map (fun file => fst (Split file))
                                [SidecarConfigFile p; CertFile p; KeyFile p])).
    { apply watchFiles_ok. auto. }
    congruence.
Qed.

(** X22.  What is watched after start-up is, in order, the directory part
    of the configuration file, of the certificate file and of the key file:
    each watched directory followed by a name without a separator gives
    back the path of its file. *)
Theorem start_watches_parent_directories (fs : gmap string string)
    (p : WebHookParameters) (s : started) :
  start fs p = Ok s ->
  Watched s = map (fun file => fst (Split file))
                [SidecarConfigFile p; CertFile p; KeyFile p]
  /\ Forall2 (fun dir file => exists name,
                dir +:+ name = file /\ noSlash name = true)
       (Watched s) [SidecarConfigFile p; CertFile p; KeyFile p]
  /\ Routes s = ["/webhookmutation"].
Proof.
  unfold NewWebhook. intros H.
  destruct (loadConfig _ _ _) as [cfg | e]; [| discriminate H].
  destruct (LoadX509KeyPair _ _ _ _) as [crt | e]; [| discriminate H].
  destruct NewWatcher; [discriminate H |].
  destruct (watchFiles _ _ _) as [watched | e] eqn:Hw; [| discriminate H].
  injection H as <-. simpl.
  apply watchFiles_ok in Hw as [_ ->]. simpl.
  split; [reflexivity |]. split; [| reflexivity].
  repeat constructor;
    eexists; (split; [apply Split_join | apply Split_file_noSlash]).
Qed.

End StartupFacts.

Lemma start_sample :
  NewWebhook Sample.yamlUnmarshal Sample.X509KeyPair None Sample.Watch
    Sample.goodFiles Sample.params
  = Ok {| hook := {| SidecarConfig := Sample.otherSidecar;
                     TLSConfig := [Sample.newPair] |};
          Addr := ":443";
          Watched := ["/etc/config/"; "/etc/certs/"; "/etc/certs/"];
          Routes := ["/webhookmutation"] |}.
Proof. vm_compute. reflexivity. Qed.

Lemma start_agrees_with_reload_witness :
  NewWebhook Sample.yamlUnmarshal Sample.X509KeyPair None Sample.Watch
    Sample.goodFiles Sample.params
  = Ok {| hook := {| SidecarConfig := Sample.otherSidecar;
                     TLSConfig := [Sample.newPair] |};
          Addr := ":443";
          Watched := ["/etc/config/"; "/etc/certs/"; "/etc/certs/"];
          Routes := ["/webhookmutation"] |}
  /\ reload Sample.yamlUnmarshal Sample.X509KeyPair Sample.params Sample.goodFiles
       Sample.webhook
     = {| SidecarConfig := Sample.otherSidecar; TLSConfig := [Sample.newPair] |}.
Proof.
  split; [exact start_sample |].
  exact (proj1 (proj2 (proj2
    (start_agrees_with_reload Sample.yamlUnmarshal Sample.X509KeyPair None
       Sample.Watch Sample.goodFiles Sample.params _ start_sample))) Sample.webhook).
Defined.

Lemma start_watches_parent_directories_witness :
  NewWebhook Sample.yamlUnmarshal Sample.X509KeyPair None Sample.Watch
    Sample.goodFiles Sample.params
  = Ok {| hook := {| SidecarConfig := Sample.otherSidecar;
                     TLSConfig := [Sample.newPair] |};
          Addr := ":443";
          Watched := ["/etc/config/"; "/etc/certs/"; "/etc/certs/"];
          Routes := ["/webhookmutation"] |}
  /\ ["/etc/config/"; "/etc/certs/"; "/etc/certs/"]
     = map (fun file => fst (Split file))
         [SidecarConfigFile Sample.params; CertFile Sample.params;
          KeyFile Sample.params].
Proof.
  split; [exact start_sample |].
  exact (proj1
    (start_watches_parent_directories Sample.yamlUnmarshal Sample.X509KeyPair None
       Sample.Watch Sample.goodFiles Sample.params _ start_sample)).
Defined.

(** ** The reload's critical section under every schedule *)

(** X23.  Whatever the schedule, the reload holds the lock exactly from its
    [Lock] to its [Unlock], the request path never holds it, and the TLS
    configuration is the one the server started with until the reload's
    second assignment and the reloaded one from then on: the request path
    never writes it. *)
Theorem reload_lock_invariant (SetDefaults_Container : corev1.Container -> corev1.Container)
    (SetDefaults_Volume : corev1.Volume -> corev1.Volume)
    (SetDefaults_LocalObjectReference :
       corev1.LocalObjectReference -> corev1.LocalObjectReference)
    (sidecarConfig : Config) (keyPair : Certificate) (pod : corev1.Pod)
    (w : WebHookServer) (schedule : list goroutine) :
  let s := runSchedule SetDefaults_Container SetDefaults_Volume
             SetDefaults_LocalObjectReference sidecarConfig keyPair pod
             (startShared w) schedule in
  (Lock s = Some Reloader <-> 1 <= reloadPC s <= 3)
  /\ Lock s <> Some Handler
  /\ reloadPC s <= 4
  /\ TLSConfig (wh s) = (if Nat.leb (reloadPC s) 2 then TLSConfig w else [keyPair]).
Proof.
  set (Inv := fun s : shared =>
    (Lock s = Some Reloader <-> 1 <= reloadPC s <= 3)
    /\ Lock s <> Some Handler
    /\ reloadPC s <= 4
    /\ TLSConfig (wh s) = (if Nat.leb (reloadPC s) 2 then TLSConfig w else [keyPair])).
  assert (Hstep : forall s g, Inv s ->
            Inv (schedStep SetDefaults_Container SetDefaults_Volume
                   SetDefaults_LocalObjectReference sidecarConfig keyPair pod s g)).
  { intros [w0 l pc hpc ops sg] g (Hl & Hh & Hpc & Htls). simpl in *.
    destruct g; simpl.
    - unfold reloaderStep. simpl.
      destruct pc as [| [| [| [| pc]]]]; simpl in *.
      + destruct l as [[|] |]; simpl.
        * exfalso. assert (1 <= 0 <= 3) by (apply Hl; reflexivity). lia.
        * congruence.
        * unfold Inv. simpl.
          repeat split; try lia; try congruence; try discriminate.
      + unfold Inv. simpl.
        repeat split; try lia; try tauto; try congruence;
          try (intros; apply Hl; lia).
      + unfold Inv. simpl.
        repeat split; try lia; try tauto; try congruence;
          try (intros; apply Hl; lia).
      + unfold Inv. simpl.
        repeat split; try lia; try congruence; try discriminate.
      + unfold Inv. simpl.
        repeat split; try lia; try tauto; try congruence;
          try (intros; apply Hl; lia).
    - unfold handlerStep. simpl.
      destruct hpc as [| [| hpc]]; unfold Inv; simpl;
        repeat split; try lia; try tauto; try congruence;
          try (intros; apply Hl; lia). }
  assert (Hrun : forall sched s, Inv s ->
            Inv (fold_left (schedStep SetDefaults_Container SetDefaults_Volume
                              SetDefaults_LocalObjectReference sidecarConfig
                              keyPair pod) sched s)).
  { induction sched as [| g sched IH]; intros s Hs; [exact Hs |].
    simpl. apply IH, Hstep, Hs. }
  intros s. apply (Hrun schedule (startShared w)).
  unfold Inv. simpl. repeat split; try lia; try discriminate.
Qed.

(** ** Case and other files *)





Section FilesFacts.

Variable yamlUnmarshal : string -> result Config.
Variable X509KeyPair : string -> string -> result Certificate.

(** X25.  A reload reads the configuration file, the certificate file and
    the key file and nothing else: on two sets of files that agree on these
    three paths it does the same to every server. *)
Theorem reload_reads_three_files (p : WebHookParameters)
    (fs fs' : gmap string string) (w : WebHookServer) :
  fs !! SidecarConfigFile p = fs' !! SidecarConfigFile p ->
  fs !! CertFile p = fs' !! CertFile p ->
  fs !! KeyFile p = fs' !! KeyFile p ->
  reload yamlUnmarshal X509KeyPair p fs w = reload yamlUnmarshal X509KeyPair p fs' w.
Proof.
  intros Hc Hp Hk.
  unfold reload, loadConfig, LoadX509KeyPair, ReadFile.
  rewrite Hc, Hp, Hk. reflexivity.
Qed.

End FilesFacts.

Lemma reload_reads_three_files_witness :
  Sample.goodFiles !! SidecarConfigFile Sample.params
    = <[ "/var/run/health" := "ok" ]> Sample.goodFiles !! SidecarConfigFile Sample.params
  /\ reload Sample.yamlUnmarshal Sample.X509KeyPair Sample.params Sample.goodFiles
       Sample.webhook
     = reload Sample.yamlUnmarshal Sample.X509KeyPair Sample.params
         (<[ "/var/run/health" := "ok" ]> Sample.goodFiles) Sample.webhook.
Proof.
  assert (H1 : Sample.goodFiles !! SidecarConfigFile Sample.params
               = <[ "/var/run/health" := "ok" ]> Sample.goodFiles
                   !! SidecarConfigFile Sample.params)
    by (vm_compute; reflexivity).
  assert (H2 : Sample.goodFiles !! CertFile Sample.params
               = <[ "/var/run/health" := "ok" ]> Sample.goodFiles
                   !! CertFile Sample.params)
    by (vm_compute; reflexivity).
  assert (H3 : Sample.goodFiles !! KeyFile Sample.params
               = <[ "/var/run/health" := "ok" ]> Sample.goodFiles
                   !! KeyFile Sample.params)
    by (vm_compute; reflexivity).
  split; [exact H1 |].
  exact (reload_reads_three_files Sample.yamlUnmarshal Sample.X509KeyPair
           Sample.params _ _ Sample.webhook H1 H2 H3).
Defined.
